(** * Checkout and inventory consistency of the online-kart backend

    A shallow embedding of [api/models.py], [api/serializers.py] and the cart
    and checkout views of [api/views.py], with the properties of the checkout
    core stated and proved over it.

    The store is a record of tables.  Views are computations in a state and
    exception monad over the store; [transaction_atomic] gives the rollback of
    Django's decorator and [dispatch] the translation of exceptions into HTTP
    responses made by the REST framework. *)

From Stdlib Require Import ZArith Ascii Sorted.
From stdpp Require Import gmap list strings pretty sorting.

Local Open Scope Z_scope.

(** ** Data model ([api/models.py]) *)

(** [DecimalField(decimal_places=2)]: an amount is held as its number of
    hundredths.  Sums of amounts and products of an amount by an integer are
    then exact, as they are in Python's decimal arithmetic for amounts
    within the digits of the fields. *)
Definition Decimal := Z.

Record Product := {
  title : string;
  price : Decimal;
  stock : Z;
  is_active : bool;
}.

Record CartItem := {
  ci_id : Z;
  ci_cart : Z;
  ci_product : Z;
  ci_quantity : Z;
}.

Inductive Status := pending | paid | shipped | delivered | cancelled.

Record Order := {
  order_id : Z;
  order_user : Z;
  status : Status;
  total_amount : Decimal;
  shipping_address : string;
}.

Record OrderItem := {
  oi_id : Z;
  oi_order : Z;
  oi_product : Z;
  oi_quantity : Z;
  oi_unit_price : Decimal;
}.

(** The store.  [products] maps a primary key to its row; [carts] is the
    one-to-one relation from a user to the primary key of that user's cart;
    the other tables are kept as rows in storage order.  The [next_*] fields
    are the primary-key sequences. *)
Record Db := {
  products : gmap Z Product;
  carts : gmap Z Z;
  cart_items : list CartItem;
  orders : list Order;
  order_items : list OrderItem;
  next_cart_id : Z;
  next_cart_item_id : Z;
  next_order_id : Z;
  next_order_item_id : Z;
}.

Definition empty_db : Db :=
  {| products := ∅; carts := ∅; cart_items := []; orders := []; order_items := [];
     next_cart_id := 1; next_cart_item_id := 1; next_order_id := 1;
     next_order_item_id := 1 |}.

Definition set_stock (n : Z) (p : Product) : Product :=
  {| title := title p; price := price p; stock := n; is_active := is_active p |}.

Definition set_quantity (q : Z) (it : CartItem) : CartItem :=
  {| ci_id := ci_id it; ci_cart := ci_cart it; ci_product := ci_product it;
     ci_quantity := q |}.

Definition set_oi_id (i : Z) (oi : OrderItem) : OrderItem :=
  {| oi_id := i; oi_order := oi_order oi; oi_product := oi_product oi;
     oi_quantity := oi_quantity oi; oi_unit_price := oi_unit_price oi |}.

Definition set_total_status (t : Decimal) (st : Status) (o : Order) : Order :=
  {| order_id := order_id o; order_user := order_user o; status := st;
     total_amount := t; shipping_address := shipping_address o |}.

Definition with_products (f : gmap Z Product → gmap Z Product) (s : Db) : Db :=
  {| products := f (products s); carts := carts s; cart_items := cart_items s;
     orders := orders s; order_items := order_items s;
     next_cart_id := next_cart_id s; next_cart_item_id := next_cart_item_id s;
     next_order_id := next_order_id s; next_order_item_id := next_order_item_id s |}.

Definition with_cart_items (f : list CartItem → list CartItem) (s : Db) : Db :=
  {| products := products s; carts := carts s; cart_items := f (cart_items s);
     orders := orders s; order_items := order_items s;
     next_cart_id := next_cart_id s; next_cart_item_id := next_cart_item_id s;
     next_order_id := next_order_id s; next_order_item_id := next_order_item_id s |}.

Definition with_orders (f : list Order → list Order) (s : Db) : Db :=
  {| products := products s; carts := carts s; cart_items := cart_items s;
     orders := f (orders s); order_items := order_items s;
     next_cart_id := next_cart_id s; next_cart_item_id := next_cart_item_id s;
     next_order_id := next_order_id s; next_order_item_id := next_order_item_id s |}.

(** ** Exceptions, responses and the view monad *)

Inductive Exception :=
| ValidationError (detail : string)
| Http404
| MultipleObjectsReturned
| OperationalError.

Inductive Result (A : Type) :=
| Ok (a : A)
| Raise (e : Exception).
Arguments Ok {A} a.
Arguments Raise {A} e.

(** A computation reads and writes the store and either returns or raises;
    the store it leaves when it raises is the store at the raise (views run
    in autocommit unless wrapped in [transaction_atomic]). *)
Definition M (A : Type) : Type := Db → Db * Result A.

#[global] Instance M_ret : MRet M := λ A a s, (s, Ok a).
#[global] Instance M_bind : MBind M := λ A B f m s,
  match m s with
  | (s', Ok a) => f a s'
  | (s', Raise e) => (s', Raise e)
  end.

Definition raise {A} (e : Exception) : M A := λ s, (s, Raise e).
Definition get_db : M Db := λ s, (s, Ok s).
Definition modify_db (f : Db → Db) : M unit := λ s, (f s, Ok tt).

(** Body of a response: [{"detail": ..., "product_id": ...}], the serialized
    cart (its items joined with their products, and the subtotal), or the
    serialized order with its items. *)
Inductive Body :=
| Detail (detail : string) (product_id : option Z)
| CartData (cart user : Z) (items : list (CartItem * Product)) (subtotal : Decimal)
| OrderData (order : Order) (items : list OrderItem)
| ServerError.

Record Response := {
  status_code : Z;
  data : Body;
}.

Definition HTTP_200_OK := 200.
Definition HTTP_201_CREATED := 201.
Definition HTTP_400_BAD_REQUEST := 400.

(** [@transaction.atomic]: the writes of a body that raises are rolled back
    and the exception goes on; a body that returns, with whatever response,
    is committed.  [conflict] is the store's verdict on the transaction: when
    it is set the store reports a serialization failure, which reaches the
    view as [OperationalError] with everything rolled back. *)
Definition transaction_atomic {A} (conflict : bool) (body : M A) : M A := λ s,
  if conflict then (s, Raise OperationalError)
  else match body s with
       | (s', Ok a) => (s', Ok a)
       | (_, Raise e) => (s, Raise e)
       end.

(** The framework's exception handler around a view. *)
Definition dispatch (view : M Response) (s : Db) : Db * Response :=
  match view s with
  | (s', Ok r) => (s', r)
  | (s', Raise (ValidationError d)) =>
      (s', {| status_code := HTTP_400_BAD_REQUEST; data := Detail d None |})
  | (s', Raise Http404) =>
      (s', {| status_code := 404; data := Detail "Not found." None |})
  | (s', Raise _) => (s', {| status_code := 500; data := ServerError |})
  end.

(** ** Queries and writes of the object manager *)

(** [Cart.objects.get_or_create(user=user)] *)
Definition _get_or_create_cart (user : Z) : M Z := λ s,
  match carts s !! user with
  | Some cart => (s, Ok cart)
  | None =>
      let cart := next_cart_id s in
      ({| products := products s; carts := <[user := cart]> (carts s);
          cart_items := cart_items s; orders := orders s;
          order_items := order_items s;
          next_cart_id := cart + 1; next_cart_item_id := next_cart_item_id s;
          next_order_id := next_order_id s;
          next_order_item_id := next_order_item_id s |}, Ok cart)
  end.

(** [cart.items.all()] over a table *)
Definition items_of (cart : Z) (rows : list CartItem) : list CartItem :=
  filter (λ it, ci_cart it = cart) rows.

(** [select_related("product")]: the inner join of rows with their products. *)
Definition join_product (ps : gmap Z Product) (it : CartItem)
  : option (CartItem * Product) :=
  p ← ps !! ci_product it; Some (it, p).

(** [cart.items.select_related("product")], in the order of the table: the
    query carries no [order_by] and [CartItem] declares no default ordering. *)
Definition cart_items_with_product (cart : Z) : M (list (CartItem * Product)) := λ s,
  (s, Ok (omap (join_product (products s)) (items_of cart (cart_items s)))).

(** [CartItem.get_line_total] and [Cart.get_subtotal] *)
Definition get_line_total (row : CartItem * Product) : Decimal :=
  price row.2 * ci_quantity row.1.

Definition get_subtotal (rows : list (CartItem * Product)) : Decimal :=
  foldl (λ total row, total + get_line_total row) 0 rows.

(** [CartSerializer(cart).data] *)
Definition CartSerializer_data (user cart : Z) : M Body :=
  rows ← cart_items_with_product cart;
  mret (CartData cart user rows (get_subtotal rows)).

(** [Product.objects.get(id=product_id, is_active=True)] *)
Definition Product_get_active (s : Db) (product_id : Z) : option Product :=
  match products s !! product_id with
  | Some p => if is_active p then Some p else None
  | None => None
  end.

Definition get_object_or_404 (product_id : Z) : M Product := λ s,
  match Product_get_active s product_id with
  | Some p => (s, Ok p)
  | None => (s, Raise Http404)
  end.

(** [CartItem.objects.create(cart=, product=, quantity=)]: a row appended to
    the table under the next primary key. *)
Definition CartItem_create (cart product_id quantity : Z) : M CartItem := λ s,
  let item := {| ci_id := next_cart_item_id s; ci_cart := cart;
                 ci_product := product_id; ci_quantity := quantity |} in
  ({| products := products s; carts := carts s;
      cart_items := cart_items s ++ [item]; orders := orders s;
      order_items := order_items s;
      next_cart_id := next_cart_id s;
      next_cart_item_id := next_cart_item_id s + 1;
      next_order_id := next_order_id s;
      next_order_item_id := next_order_item_id s |}, Ok item).

(** [CartItem.objects.get_or_create(cart=, product=, defaults={quantity})]:
    the row found, or a row created; [get] refuses several matches. *)
Definition CartItem_get_or_create (cart product_id quantity : Z)
  : M (CartItem * bool) := λ s,
  match filter (λ it, ci_cart it = cart ∧ ci_product it = product_id) (cart_items s) with
  | [] => (item ← CartItem_create cart product_id quantity; mret (item, true)) s
  | [item] => (s, Ok (item, false))
  | _ => (s, Raise MultipleObjectsReturned)
  end.

(** [item.save(update_fields=["quantity", ...])]: an UPDATE by primary key. *)
Definition CartItem_save_quantity (item : CartItem) : M unit :=
  modify_db (with_cart_items (fmap (λ row,
    if decide (ci_id row = ci_id item) then set_quantity (ci_quantity item) row
    else row))).

(** [product.save(update_fields=["stock", ...])]: only the stock column of
    the row is written. *)
Definition Product_save_stock (product_id new_stock : Z) : M unit :=
  modify_db (with_products (alter (set_stock new_stock) product_id)).

(** [Order.objects.create(user=, shipping_address=)]: status and total take
    their defaults. *)
Definition Order_create (user : Z) (address : string) : M Order := λ s,
  let order := {| order_id := next_order_id s; order_user := user;
                  status := pending; total_amount := 0;
                  shipping_address := address |} in
  ({| products := products s; carts := carts s; cart_items := cart_items s;
      orders := orders s ++ [order]; order_items := order_items s;
      next_cart_id := next_cart_id s; next_cart_item_id := next_cart_item_id s;
      next_order_id := next_order_id s + 1;
      next_order_item_id := next_order_item_id s |}, Ok order).

(** [OrderItem.objects.bulk_create(order_items)]: the rows are inserted in
    list order with consecutive primary keys. *)
Definition OrderItem_bulk_create (new_items : list OrderItem) : M unit := λ s,
  ({| products := products s; carts := carts s; cart_items := cart_items s;
      orders := orders s;
      order_items := order_items s ++
        imap (λ i oi, set_oi_id (next_order_item_id s + Z.of_nat i) oi) new_items;
      next_cart_id := next_cart_id s; next_cart_item_id := next_cart_item_id s;
      next_order_id := next_order_id s;
      next_order_item_id := next_order_item_id s + Z.of_nat (length new_items) |},
   Ok tt).

(** [order.save(update_fields=["total_amount", "status", ...])] *)
Definition Order_save_total_status (order : Order) : M unit :=
  modify_db (with_orders (fmap (λ row,
    if decide (order_id row = order_id order)
    then set_total_status (total_amount order) (status order) row
    else row))).

(** [order.items]: the order's lines, as [OrderSerializer] reads them. *)
Definition items_of_order (order : Z) (rows : list OrderItem) : list OrderItem :=
  filter (λ oi, oi_order oi = order) rows.

Definition OrderSerializer_data (order : Order) : M Body :=
  s ← get_db;
  mret (OrderData order (items_of_order (order_id order) (order_items s))).

(** [cart.items.all().delete()] *)
Definition CartItems_delete_all (cart : Z) : M unit :=
  modify_db (with_cart_items (filter (λ it, ci_cart it ≠ cart))).

(** [CartItem.objects.filter(cart=cart, product_id=product_id).delete()] *)
Definition CartItems_delete_product (cart product_id : Z) : M unit :=
  modify_db (with_cart_items
    (filter (λ it, ¬ (ci_cart it = cart ∧ ci_product it = product_id)))).

(** ** Serializers ([api/serializers.py]) *)

Record CheckoutRequest := {
  req_shipping_address : option string;
}.

Record AddToCartRequest := {
  req_product_id : option Z;
  req_quantity : option Z;
}.

(** Whitespace as [str.strip] sees it, on one-byte characters. *)
Definition is_space (a : ascii) : bool :=
  let n := nat_of_ascii a in
  ((9 <=? n) && (n <=? 13) || (28 <=? n) && (n <=? 32))%nat.

Fixpoint lstrip (v : string) : string :=
  match v with
  | EmptyString => EmptyString
  | String a rest => if is_space a then lstrip rest else v
  end.

Fixpoint rstrip (v : string) : string :=
  match v with
  | EmptyString => EmptyString
  | String a rest =>
      match rstrip rest with
      | EmptyString => if is_space a then EmptyString else String a EmptyString
      | kept => String a kept
      end
  end.

Definition strip (v : string) : string := lstrip (rstrip v).

(** [serializers.CharField(max_length=n)] with the framework's defaults: the
    field is required, surrounding whitespace is trimmed, a blank value is
    refused, and the trimmed value holds at most [n] characters. *)
Definition CharField_run_validation (max_length : nat) (value : option string)
  : Result string :=
  match value with
  | None => Raise (ValidationError "This field is required.")
  | Some v =>
      let v := strip v in
      if decide (v = EmptyString)
      then Raise (ValidationError "This field may not be blank.")
      else if decide (max_length < String.length v)%nat
      then Raise (ValidationError "Ensure this field has no more than 500 characters.")
      else Ok v
  end.

(** [CheckoutSerializer(data=...).is_valid(raise_exception=True)], giving
    [validated_data["shipping_address"]]. *)
Definition CheckoutSerializer_is_valid (data : CheckoutRequest) : M string := λ s,
  (s, CharField_run_validation 500 (req_shipping_address data)).

(** [AddToCartSerializer(data=...).is_valid(raise_exception=True)], giving
    [validated_data["product_id"]] and [validated_data["quantity"]]: the
    fields first ([product_id] required, [quantity] defaulting to 1), then
    [AddToCartSerializer.validate]. *)
Definition AddToCartSerializer_is_valid (data : AddToCartRequest) : M (Z * Z) := λ s,
  match req_product_id data with
  | None => (s, Raise (ValidationError "This field is required."))
  | Some product_id =>
      let quantity := default 1 (req_quantity data) in
      match Product_get_active s product_id with
      | None => (s, Raise (ValidationError "Product not found or inactive."))
      | Some product =>
          if decide (quantity < 1)
          then (s, Raise (ValidationError "Quantity must be at least 1."))
          else if decide (stock product < quantity)
          then (s, Raise (ValidationError "Insufficient stock for this product."))
          else (s, Ok (product_id, quantity))
      end
  end.

(** ** Cart views ([CartViewSet] in [api/views.py]) *)

Definition list_cart (user : Z) : M Response :=
  cart ← _get_or_create_cart user;
  body ← CartSerializer_data user cart;
  mret {| status_code := HTTP_200_OK; data := body |}.

Definition add_item (user : Z) (data : AddToCartRequest) : M Response :=
  '(product_id, quantity) ← AddToCartSerializer_is_valid data;
  product ← get_object_or_404 product_id;
  if decide (stock product < quantity) then
    mret {| status_code := HTTP_400_BAD_REQUEST;
            data := Detail "Insufficient stock." None |}
  else
    cart ← _get_or_create_cart user;
    '(item, created) ← CartItem_get_or_create cart product_id quantity;
    _ ← (if created : bool then mret tt
         else CartItem_save_quantity (set_quantity quantity item));
    body ← CartSerializer_data user cart;
    mret {| status_code := HTTP_200_OK; data := body |}.

(** [not product_id] on [request.data.get("product_id")]: a missing value
    and the integer 0 are both falsy. *)
Definition falsy (v : option Z) : bool :=
  match v with
  | None => true
  | Some n => bool_decide (n = 0)
  end.

Definition remove_item (user : Z) (data : AddToCartRequest) : M Response :=
  let product_id := req_product_id data in
  if falsy product_id then
    mret {| status_code := HTTP_400_BAD_REQUEST;
            data := Detail "product_id is required" None |}
  else
    cart ← _get_or_create_cart user;
    _ ← CartItems_delete_product cart (default 0 product_id);
    body ← CartSerializer_data user cart;
    mret {| status_code := HTTP_200_OK; data := body |}.

Definition clear (user : Z) : M Response :=
  cart ← _get_or_create_cart user;
  _ ← CartItems_delete_all cart;
  mret {| status_code := HTTP_200_OK; data := Detail "Cart cleared." None |}.

(** [cart.items.select_related("product").select_for_update(of=("self",
    "product"))]: the rows of the join, each locked with its product as the
    query yields it. *)
Definition select_for_update (cart : Z) : M (list (CartItem * Product)) :=
  cart_items_with_product cart.

(** The stock validation loop: the first line whose product is short. *)
Fixpoint stock_validation (items : list (CartItem * Product))
  : option (CartItem * Product) :=
  match items with
  | [] => None
  | (it, product) :: rest =>
      if decide (stock product < ci_quantity it) then Some (it, product)
      else stock_validation rest
  end.

(** The order loop: each line adds to the total, appends an unsaved
    [OrderItem] (primary key unset, written 0) and saves the stock of its own
    copy of the product lowered by the quantity. *)
Fixpoint place_lines (order : Order) (items : list (CartItem * Product))
    (total : Decimal) (new_items : list OrderItem) : M (Decimal * list OrderItem) :=
  match items with
  | [] => mret (total, new_items)
  | (it, product) :: rest =>
      let unit_price := price product in
      let line_total := unit_price * ci_quantity it in
      let total := total + line_total in
      let new_items := new_items ++
        [{| oi_id := 0; oi_order := order_id order; oi_product := ci_product it;
            oi_quantity := ci_quantity it; oi_unit_price := unit_price |}] in
      _ ← Product_save_stock (ci_product it) (stock product - ci_quantity it);
      place_lines order rest total new_items
  end.

Definition checkout_body (user : Z) (data : CheckoutRequest) : M Response :=
  shipping_address ← CheckoutSerializer_is_valid data;
  cart ← _get_or_create_cart user;
  items ← select_for_update cart;
  match items with
  | [] =>
      mret {| status_code := HTTP_400_BAD_REQUEST;
              data := Detail "Cart is empty." None |}
  | _ =>
      match stock_validation items with
      | Some (it, product) =>
          mret {| status_code := HTTP_400_BAD_REQUEST;
                  data := Detail ("Insufficient stock for " +:+ title product)
                                 (Some (ci_product it)) |}
      | None =>
          order ← Order_create user shipping_address;
          '(total, new_items) ← place_lines order items 0 [];
          _ ← OrderItem_bulk_create new_items;
          let order := set_total_status total paid order in
          _ ← Order_save_total_status order;
          _ ← CartItems_delete_all cart;
          body ← OrderSerializer_data order;
          mret {| status_code := HTTP_201_CREATED; data := body |}
      end
  end.

(** [checkout] as decorated with [@transaction.atomic]. *)
Definition checkout (conflict : bool) (user : Z) (data : CheckoutRequest)
  : M Response :=
  transaction_atomic conflict (checkout_body user data).

(** ** Requests *)

(** The endpoints as a client sees them, on a store that raises no
    serialization failure. *)
Definition get_cart (user : Z) : Db → Db * Response :=
  dispatch (list_cart user).
Definition post_add_item (user : Z) (data : AddToCartRequest) : Db → Db * Response :=
  dispatch (add_item user data).
Definition post_remove_item (user : Z) (data : AddToCartRequest) : Db → Db * Response :=
  dispatch (remove_item user data).
Definition post_clear (user : Z) : Db → Db * Response :=
  dispatch (clear user).
Definition post_checkout (user : Z) (data : CheckoutRequest) : Db → Db * Response :=
  dispatch (checkout false user data).

Inductive Request :=
| GetCart
| AddItem (data : AddToCartRequest)
| RemoveItem (data : AddToCartRequest)
| Clear
| Checkout (data : CheckoutRequest).

Definition handle (user : Z) (req : Request) : Db → Db * Response :=
  match req with
  | GetCart => get_cart user
  | AddItem data => post_add_item user data
  | RemoveItem data => post_remove_item user data
  | Clear => post_clear user
  | Checkout data => post_checkout user data
  end.

(** [getLines(shopperId)]: the cart lines of a shopper. *)
Definition getLines (s : Db) (user : Z) : list CartItem :=
  match carts s !! user with
  | Some cart => items_of cart (cart_items s)
  | None => []
  end.

(** ** Lock order and serialization failures *)


(** One request to the checkout endpoint on a store that may refuse
    transactions: [verdicts] tells, for the transactions the request begins
    in turn, whether the store fails them with a serialization failure.
    The view is entered once and begins one transaction. *)
Definition serve_checkout (verdicts : list bool) (user : Z)
    (request : CheckoutRequest) : Db → Db * Response :=
  dispatch (checkout (default false (head verdicts)) user request).

(** The engine as section 7 of the specification words it: a transaction
    that met a serialization failure is begun again, at most [retries]
    times, before the failure is surfaced. *)
Fixpoint spec_checkout_with_retry (retries : nat) (verdicts : list bool) (user : Z)
    (request : CheckoutRequest) : M Response := λ s,
  match checkout (default false (head verdicts)) user request s with
  | (_, Raise OperationalError) =>
      match retries with
      | O => (s, Raise OperationalError)
      | S n => spec_checkout_with_retry n (tail verdicts) user request s
      end
  | outcome => outcome
  end.

(** ** Constraints of the schema *)

(** What the database enforces on its rows and the proofs rely on: primary
    keys come from the sequences, a cart belongs to one user, foreign keys
    point at rows, and [unique_together = ("cart", "product")]. *)
Record db_constraints (s : Db) : Prop := {
  cart_pk_fresh : ∀ u c, carts s !! u = Some c → c < next_cart_id s;
  cart_pk_unique : ∀ u1 u2 c,
    carts s !! u1 = Some c → carts s !! u2 = Some c → u1 = u2;
  cart_item_cart_fk : ∀ it, it ∈ cart_items s → ∃ u, carts s !! u = Some (ci_cart it);
  cart_item_product_fk : ∀ it,
    it ∈ cart_items s → is_Some (products s !! ci_product it);
  cart_item_unique_together :
    NoDup ((λ it, (ci_cart it, ci_product it)) <$> cart_items s);
  order_pk_fresh : ∀ o, o ∈ orders s → order_id o < next_order_id s;
  order_item_order_fk : ∀ oi,
    oi ∈ order_items s → ∃ o, o ∈ orders s ∧ order_id o = oi_order oi;
}.

(** [PositiveIntegerField] on [Product.stock]. *)
Definition stock_nonneg (s : Db) : Prop :=
  map_Forall (λ _ p, 0 ≤ stock p) (products s).

(** A store with a catalogue and nothing else: no cart, no order. *)
Definition fresh_store (ps : gmap Z Product) : Db :=
  with_products (λ _, ps) empty_db.

(** A run of the core: requests of shoppers served one after the other. *)
Definition run (trace : list (Z * Request)) (s : Db) : Db :=
  foldl (λ s call, (handle call.1 call.2 s).1) s trace.

(** ** The views in direct style *)

(** Store and cart after [_get_or_create_cart]. *)
Definition cart_fetched (user : Z) (s : Db) : Db * Z :=
  match _get_or_create_cart user s with
  | (s1, Ok cart) => (s1, cart)
  | (s1, Raise _) => (s1, 0)
  end.

(** Sum of a list of amounts. *)
Definition sumZ (l : list Z) : Z := foldr Z.add 0 l.

(** The unsaved order line the loop builds for a cart line. *)
Definition order_line (order : Z) (row : CartItem * Product) : OrderItem :=
  {| oi_id := 0; oi_order := order; oi_product := ci_product row.1;
     oi_quantity := ci_quantity row.1; oi_unit_price := price row.2 |}.

(** The stock write of the loop for a cart line. *)
Definition deduct (ps : gmap Z Product) (row : CartItem * Product) : gmap Z Product :=
  alter (set_stock (stock row.2 - ci_quantity row.1)) (ci_product row.1) ps.

(** The store and response of a checkout that passed validation, from the
    store [s] read after the cart was fetched. *)
Definition committed (user cart : Z) (address : string)
    (items : list (CartItem * Product)) (s : Db) : Db * Response :=
  let order := {| order_id := next_order_id s; order_user := user; status := paid;
                  total_amount := sumZ (get_line_total <$> items);
                  shipping_address := address |} in
  let lines := imap (λ i oi, set_oi_id (next_order_item_id s + Z.of_nat i) oi)
                    (order_line (next_order_id s) <$> items) in
  ({| products := foldl deduct (products s) items;
      carts := carts s;
      cart_items := filter (λ it, ci_cart it ≠ cart) (cart_items s);
      orders := (λ row, if decide (order_id row = next_order_id s)
                        then set_total_status (sumZ (get_line_total <$> items)) paid row
                        else row) <$>
                (orders s ++ [set_total_status 0 pending order]);
      order_items := order_items s ++ lines;
      next_cart_id := next_cart_id s;
      next_cart_item_id := next_cart_item_id s;
      next_order_id := next_order_id s + 1;
      next_order_item_id := next_order_item_id s + Z.of_nat (length items) |},
   {| status_code := HTTP_201_CREATED;
      data := OrderData order
                (items_of_order (next_order_id s) (order_items s ++ lines)) |}).

(** [CartSerializer(cart).data] read off a store. *)
Definition cart_data (user cart : Z) (s : Db) : Body :=
  let rows := omap (join_product (products s)) (items_of cart (cart_items s)) in
  CartData cart user rows (get_subtotal rows).

(** The 400 the framework makes of a [ValidationError]. *)
Definition bad_request (detail : string) : Response :=
  {| status_code := HTTP_400_BAD_REQUEST; data := Detail detail None |}.

(** The UPDATE that [add_item] issues for a line it found. *)
Definition requantify (item : CartItem) (quantity : Z) (row : CartItem) : CartItem :=
  if decide (ci_id row = ci_id item) then set_quantity quantity row else row.

(** The product a request names, if the store has it. *)
Definition requested_product (s : Db) (request : AddToCartRequest) : option Product :=
  pid ← req_product_id request; products s !! pid.

(** ** Order lines against cart lines *)



(** [OrderItem.get_line_total] *)
Definition oi_line_total (oi : OrderItem) : Decimal :=
  oi_unit_price oi * oi_quantity oi.

(** ** Sample stores *)

(** A small catalogue, and requests over it. *)
Definition headphones : Product :=
  {| title := "Headphones"; price := 9999; stock := 10; is_active := true |}.
Definition cable : Product :=
  {| title := "Cable"; price := 250; stock := 3; is_active := true |}.
Definition shop : Db := fresh_store {[ 1 := headphones; 2 := cable ]}.
Definition add (product_id quantity : Z) : AddToCartRequest :=
  {| req_product_id := Some product_id; req_quantity := Some quantity |}.
Definition main_st : CheckoutRequest :=
  {| req_shipping_address := Some "123 Main St" |}.

(** A cart over [shop] asking for five cables where three are in stock,
    after two headphones that are available. *)
Definition short_cart : Db :=
  {| products := products shop; carts := {[ 7 := 1 ]};
     cart_items := [ {| ci_id := 1; ci_cart := 1; ci_product := 1; ci_quantity := 2 |};
                     {| ci_id := 2; ci_cart := 1; ci_product := 2; ci_quantity := 5 |} ];
     orders := []; order_items := [];
     next_cart_id := 2; next_cart_item_id := 3; next_order_id := 1;
     next_order_item_id := 1 |}.

(** A cart over [shop] that can be bought: one cable, then two headphones. *)
Definition good_cart : Db :=
  {| products := products shop; carts := {[ 7 := 1 ]};
     cart_items := [ {| ci_id := 1; ci_cart := 1; ci_product := 2; ci_quantity := 1 |};
                     {| ci_id := 2; ci_cart := 1; ci_product := 1; ci_quantity := 2 |} ];
     orders := []; order_items := [];
     next_cart_id := 2; next_cart_item_id := 3; next_order_id := 1;
     next_order_item_id := 1 |}.

(** Unfolds the operations of the view monad. *)
Ltac unfold_M :=
  unfold mbind, M_bind, mret, M_ret, raise, get_db, modify_db in *.

(** ** The cart as a map, and further constraints *)

(** The content of a shopper's cart: the quantity held for each product. *)
Definition cart_map (s : Db) (user : Z) : gmap Z Z :=
  list_to_map ((λ it, (ci_product it, ci_quantity it)) <$> getLines s user).

(** Primary keys of the cart-line table: pairwise distinct and below the
    sequence. *)
Definition cart_item_pks_ok (s : Db) : Prop :=
  NoDup (ci_id <$> cart_items s) ∧
  ∀ it, it ∈ cart_items s → ci_id it < next_cart_item_id s.

(** Every cart line and every order line is for at least one unit. *)
Definition quantities_positive (s : Db) : Prop :=
  (∀ it, it ∈ cart_items s → 1 ≤ ci_quantity it) ∧
  (∀ oi, oi ∈ order_items s → 1 ≤ oi_quantity oi).

(** What a request may not touch of a store: catalogue and order history. *)
Definition same_catalogue_and_orders (s s' : Db) : Prop :=
  products s' = products s ∧ orders s' = orders s ∧ order_items s' = order_items s.

(** What the core never writes of a product. *)
Definition product_card (p : Product) : string * Decimal * bool :=
  (title p, price p, is_active p).

(** A product row against what it was: the same title, price and active
    flag, and no more stock. *)
Definition sold_down (p p' : Product) : Prop :=
  product_card p' = product_card p ∧ stock p' ≤ stock p.

(** ** Totals recomputed ([api/models.py]) *)

(** [x or Decimal("0.00")]: a zero amount is falsy. *)
Definition or_zero (x : Decimal) : Decimal :=
  if decide (x = 0) then 0 else x.

(** [OrderItem.get_line_total] *)
Definition OrderItem_get_line_total (item : OrderItem) : Decimal :=
  or_zero (oi_unit_price item) * oi_quantity item.

(** [Order.recalc_total]: the total of the order's stored lines, written on
    the object (which is not saved) and returned. *)
Definition recalc_total (order : Order) (s : Db) : Order * Decimal :=
  let total :=
    foldl (λ total item, total + OrderItem_get_line_total item) 0
          (items_of_order (order_id order) (order_items s)) in
  (set_total_status total (status order) order, total).

(** ** Slugs ([Category.save] and [Product.save] in [api/models.py]) *)

Record Category := {
  category_id : Z;
  category_name : string;
  category_slug : string;
}.

(** [objects.filter(slug=slug).exclude(pk=self.pk).exists()] over the keys
    and slugs of a table; the key of an object that was never saved is
    [None] and excludes no row. *)
Definition slug_in_use (rows : list (Z * string)) (pk : option Z) (slug : string) : bool :=
  bool_decide (Exists (λ row, row.2 = slug ∧ Some row.1 ≠ pk) rows).

(** The [while] loop of [save]: [slug] is tried, then [base-i], [base-(i+1)]
    and so on, until one is free.  [fuel] bounds the number of tries. *)
Fixpoint slug_loop (fuel : nat) (in_use : string → bool) (base slug : string) (i : nat)
  : option string :=
  match fuel with
  | O => None
  | S fuel =>
      if in_use slug
      then slug_loop fuel in_use base (base +:+ "-" +:+ pretty i) (S i)
      else Some slug
  end.

(** The slug with which [save] goes on to write the row: the slug of the
    object when it has one, a free slug made from its label otherwise.
    [slugify] is the framework's. *)
Definition save_slug (fuel : nat) (slugify : string → string)
    (rows : list (Z * string)) (pk : option Z) (label slug : string) : option string :=
  if decide (slug = EmptyString)
  then let base := slugify label in
       slug_loop fuel (slug_in_use rows pk) base base 1
  else Some slug.

(** [Category.save] up to the write: the slug for a category over a table of
    categories. *)
Definition Category_save_slug (fuel : nat) (slugify : string → string)
    (table : list Category) (pk : option Z) (name slug : string) : option string :=
  save_slug fuel slugify ((λ c, (category_id c, category_slug c)) <$> table) pk name slug.

(** The slugs the loop tries, in order. *)
Definition slug_candidate (base : string) (k : nat) : string :=
  match k with
  | O => base
  | S _ => base +:+ "-" +:+ pretty k
  end.

(** Outcome of writing a row under the table's [unique=True] columns. *)
Inductive Written (A : Type) :=
| WrittenOk (a : A)
| IntegrityError.
Arguments WrittenOk {A} a.
Arguments IntegrityError {A}.

(** [Category.objects.create(name=name)]: [save] on a new object without a
    slug, then the INSERT under the next key, which the unique columns
    [name] and [slug] may refuse.  [None] when the loop is out of fuel. *)
Definition Category_create (fuel : nat) (slugify : string → string)
    (table : list Category) (next_id : Z) (name : string)
  : option (Written (list Category)) :=
  slug ← Category_save_slug fuel slugify table None name "";
  Some (if bool_decide (name ∈ category_name <$> table)
           || bool_decide (slug ∈ category_slug <$> table)
        then IntegrityError
        else WrittenOk (table ++ [{| category_id := next_id; category_name := name;
                                     category_slug := slug |}])).

(** ** Order views ([OrderViewSet] in [api/views.py]) *)

(** [order_by("-created_at")]: [created_at] gives the creation time of the
    order with a given key. *)
Definition newer_first (created_at : Z → Z) (o1 o2 : Order) : Prop :=
  created_at (order_id o2) ≤ created_at (order_id o1).

#[global] Instance newer_first_dec created_at o1 o2 :
  Decision (newer_first created_at o1 o2) :=
  Z_le_dec (created_at (order_id o2)) (created_at (order_id o1)).

#[global] Instance newer_first_total created_at : Total (newer_first created_at) :=
  λ o1 o2, Z.le_ge_cases (created_at (order_id o2)) (created_at (order_id o1)).

(** [OrderViewSet.get_queryset]: the orders of the user, newest first; the
    order among orders created at the same time is the sort's, as it is the
    store's in the source. *)
Definition OrderViewSet_get_queryset (created_at : Z → Z) (user : Z) (s : Db)
  : list Order :=
  merge_sort (newer_first created_at) (filter (λ o, order_user o = user) (orders s)).

(** ** Deactivating a product *)




(** ** Carts against the stock *)



(** * Proofs *)

(** ** The checkout in direct style *)

Lemma sumZ_app l1 l2 : sumZ (l1 ++ l2) = sumZ l1 + sumZ l2.
Proof. induction l1 as [|x l1 IH]; simpl; [done | rewrite IH; lia]. Qed.

Lemma place_lines_run order items : ∀ total acc s,
  place_lines order items total acc s =
  (with_products (λ ps, foldl deduct ps items) s,
   Ok (total + sumZ (get_line_total <$> items),
       acc ++ (order_line (order_id order) <$> items))).
Proof.
  induction items as [|[it p] rest IH]; intros total acc s.
  - simpl. unfold_M. destruct s. unfold with_products. simpl.
    by rewrite Z.add_0_r, app_nil_r.
  - cbn [place_lines]. unfold_M. unfold Product_save_stock, modify_db.
    rewrite IH, !fmap_cons.
    change (sumZ (?x :: ?l)) with (x + sumZ l).
    rewrite Z.add_assoc, <- app_assoc. reflexivity.
Qed.

Lemma get_or_create_cart_existing user cart s :
  carts s !! user = Some cart → _get_or_create_cart user s = (s, Ok cart).
Proof. intros H. unfold _get_or_create_cart. by rewrite H. Qed.

Lemma get_or_create_cart_run user s :
  _get_or_create_cart user s = ((cart_fetched user s).1, Ok (cart_fetched user s).2).
Proof. unfold cart_fetched, _get_or_create_cart. by destruct (carts s !! user). Qed.

Lemma post_checkout_run user request s :
  post_checkout user request s =
  match CharField_run_validation 500 (req_shipping_address request) with
  | Raise e => dispatch (raise e) s
  | Ok address =>
      let '(s1, cart) := cart_fetched user s in
      let items := omap (join_product (products s1)) (items_of cart (cart_items s1)) in
      match items with
      | [] => (s1, {| status_code := HTTP_400_BAD_REQUEST;
                      data := Detail "Cart is empty." None |})
      | _ =>
          match stock_validation items with
          | Some (it, product) =>
              (s1, {| status_code := HTTP_400_BAD_REQUEST;
                      data := Detail ("Insufficient stock for " +:+ title product)
                                     (Some (ci_product it)) |})
          | None => committed user cart address items s1
          end
      end
  end.
Proof.
  unfold post_checkout, dispatch, checkout, transaction_atomic, checkout_body.
  unfold CheckoutSerializer_is_valid. unfold_M.
  destruct (CharField_run_validation 500 (req_shipping_address request)) as [address|e];
    [|done].
  rewrite get_or_create_cart_run.
  destruct (cart_fetched user s) as [s1 cart]. simpl.
  unfold select_for_update, cart_items_with_product.
  destruct (omap (join_product (products s1)) (items_of cart (cart_items s1)))
    as [|row rows] eqn:Hitems; [done|].
  destruct (stock_validation (row :: rows)) as [[it product]|]; [done|].
  unfold Order_create. rewrite place_lines_run.
  unfold OrderItem_bulk_create, Order_save_total_status, CartItems_delete_all,
    OrderSerializer_data, committed. unfold_M.
  unfold with_products, with_orders, with_cart_items. simpl.
  rewrite !length_fmap. reflexivity.
Qed.

(** ** Lemmas on the queries *)

Lemma filter_none {A} (P : A → Prop) `{∀ x, Decision (P x)} (l : list A) :
  (∀ x, x ∈ l → ¬ P x) → filter P l = [].
Proof.
  induction l as [|x l IH]; intros Hl; [done|].
  rewrite filter_cons_False by (apply Hl; left).
  apply IH. intros y Hy. apply Hl. by right.
Qed.

Lemma filter_all {A} (P : A → Prop) `{∀ x, Decision (P x)} (l : list A) :
  (∀ x, x ∈ l → P x) → filter P l = l.
Proof.
  induction l as [|x l IH]; intros Hl; [done|].
  rewrite filter_cons_True by (apply Hl; left).
  f_equal. apply IH. intros y Hy. apply Hl. by right.
Qed.

Lemma elem_of_joined ps (rows : list CartItem) it p :
  (it, p) ∈ omap (join_product ps) rows ↔ it ∈ rows ∧ ps !! ci_product it = Some p.
Proof.
  rewrite list_elem_of_omap. unfold join_product. split.
  - intros (x & Hx & Hj). destruct (ps !! ci_product x) as [q|] eqn:E;
      simpl in Hj; [|done]. by inversion Hj; subst.
  - intros [Hin Hp]. exists it. by rewrite Hp.
Qed.

Lemma elem_of_getLines s user it :
  it ∈ getLines s user ↔ it ∈ cart_items s ∧ carts s !! user = Some (ci_cart it).
Proof.
  unfold getLines, items_of. destruct (carts s !! user) as [cart|].
  - rewrite list_elem_of_filter. split; [intros [-> ?]; done|].
    intros [? [= ->]]. done.
  - split; [by intros ?%not_elem_of_nil | by intros [_ ?]].
Qed.

Lemma stock_validation_Some items row :
  stock_validation items = Some row → row ∈ items ∧ stock row.2 < ci_quantity row.1.
Proof.
  induction items as [|[it p] rest IH]; simpl; [done|].
  destruct (decide (stock p < ci_quantity it)) as [Hlt|Hge].
  - intros [= <-]. split; [left | done].
  - intros [Hin ?]%IH. split; [by right | done].
Qed.

Lemma stock_validation_None items :
  stock_validation items = None ↔
  ∀ row, row ∈ items → ci_quantity row.1 ≤ stock row.2.
Proof.
  induction items as [|[it p] rest IH]; simpl.
  - split; [by intros _ row ?%not_elem_of_nil | done].
  - destruct (decide (stock p < ci_quantity it)) as [Hlt|Hge].
    + split; [done|]. intros H. specialize (H (it, p)). simpl in H.
      assert (ci_quantity it ≤ stock p) by (apply H; left). lia.
    + rewrite IH. split.
      * intros H row [->|Hin]%elem_of_cons; [simpl; lia | by apply H].
      * intros H row Hin. apply H. by right.
Qed.

(** Every line of the cart passed: the loop ran through. *)
Lemma cart_fetched_existing user cart s :
  carts s !! user = Some cart → cart_fetched user s = (s, cart).
Proof. intros H. unfold cart_fetched. by rewrite (get_or_create_cart_existing _ cart). Qed.

Lemma cart_fetched_new user s :
  carts s !! user = None →
  cart_fetched user s =
  ({| products := products s; carts := <[user := next_cart_id s]> (carts s);
      cart_items := cart_items s; orders := orders s; order_items := order_items s;
      next_cart_id := next_cart_id s + 1; next_cart_item_id := next_cart_item_id s;
      next_order_id := next_order_id s;
      next_order_item_id := next_order_item_id s |}, next_cart_id s).
Proof. intros H. unfold cart_fetched, _get_or_create_cart. by rewrite H. Qed.

(** Fetching the cart leaves every table but [carts] as it was. *)
Lemma cart_fetched_frame user s :
  let s1 := (cart_fetched user s).1 in
  products s1 = products s ∧ cart_items s1 = cart_items s ∧
  orders s1 = orders s ∧ order_items s1 = order_items s ∧
  next_order_id s1 = next_order_id s ∧
  next_order_item_id s1 = next_order_item_id s ∧
  next_cart_item_id s1 = next_cart_item_id s ∧
  carts s1 !! user = Some (cart_fetched user s).2 ∧
  (∀ u, u ≠ user → carts s1 !! u = carts s !! u).
Proof.
  destruct (carts s !! user) as [cart|] eqn:E.
  - rewrite (cart_fetched_existing _ cart) by done. simpl. by repeat split.
  - rewrite cart_fetched_new by done. simpl.
    repeat split; [by rewrite lookup_insert_eq|].
    intros u Hu. by rewrite lookup_insert_ne.
Qed.

(** A cart fetched on a store that keeps its constraints holds the lines
    [getLines] gives, also when the cart is new. *)
Lemma items_of_cart_fetched user s :
  db_constraints s →
  let '(s1, cart) := cart_fetched user s in
  items_of cart (cart_items s1) = getLines s user.
Proof.
  intros Hc. unfold getLines. destruct (carts s !! user) as [cart|] eqn:E.
  - by rewrite (cart_fetched_existing _ cart).
  - rewrite cart_fetched_new by done. simpl. unfold items_of.
    apply filter_none. intros it Hin Heq.
    destruct (cart_item_cart_fk s Hc it Hin) as [u Hu].
    apply (cart_pk_fresh s Hc) in Hu. lia.
Qed.

Lemma CharField_raises max_length value e :
  CharField_run_validation max_length value = Raise e → ∃ d, e = ValidationError d.
Proof.
  unfold CharField_run_validation. destruct value as [v|]; [|intros [= <-]; by eexists].
  repeat case_decide; intros [= <-]; by eexists.
Qed.

(** The line reported is the first one that is short, in the cart's order. *)
Lemma stock_validation_first items row :
  stock_validation items = Some row →
  ∃ passed rest, items = passed ++ row :: rest ∧
                 ∀ r, r ∈ passed → ci_quantity r.1 ≤ stock r.2.
Proof.
  induction items as [|[it p] items IH]; simpl; [done|].
  destruct (decide (stock p < ci_quantity it)) as [Hlt|Hge].
  - intros [= <-]. exists [], items. split; [done|]. by intros r ?%not_elem_of_nil.
  - intros (passed & rest & -> & Hpassed)%IH.
    exists ((it, p) :: passed), rest. split; [done|].
    intros r [->|Hr]%elem_of_cons; [simpl; lia | by apply Hpassed].
Qed.

(** ** Failed checkouts *)

(** C1.  A checkout over a cart holding a line whose quantity exceeds the
    stock of its product answers 400 and returns the store it was given:
    stock, cart lines, orders and order lines are all as before, also for
    the lines that passed the check.  When the shipping address is valid the
    answer is the insufficient-stock one and carries the identifier of a
    product whose stock is short of its line. *)
Theorem checkout_insufficient_stock_atomic user request s :
  (∃ it p, it ∈ getLines s user ∧ products s !! ci_product it = Some p ∧
           stock p < ci_quantity it) →
  ∃ r, post_checkout user request s = (s, r) ∧
       status_code r = HTTP_400_BAD_REQUEST ∧
       ∀ address,
         CharField_run_validation 500 (req_shipping_address request) = Ok address →
         ∃ it p, it ∈ getLines s user ∧ products s !! ci_product it = Some p ∧
                 stock p < ci_quantity it ∧
                 r = {| status_code := HTTP_400_BAD_REQUEST;
                        data := Detail ("Insufficient stock for " +:+ title p)
                                       (Some (ci_product it)) |}.
Proof.
  intros (it0 & p0 & Hin0 & Hp0 & Hlt0).
  pose proof Hin0 as [Hrow0 Hcart]%elem_of_getLines.
  rewrite post_checkout_run.
  destruct (CharField_run_validation 500 (req_shipping_address request))
    as [address|e] eqn:Hvalid.
  2:{ apply CharField_raises in Hvalid as [d ->].
      eexists. split; [reflexivity|]. split; [reflexivity | by intros]. }
  rewrite (cart_fetched_existing _ _ _ Hcart). cbv zeta.
  set (items := omap (join_product (products s)) (items_of (ci_cart it0) (cart_items s))).
  assert (Hjoin0 : (it0, p0) ∈ items).
  { apply elem_of_joined. split; [|done].
    unfold items_of. by apply list_elem_of_filter. }
  destruct (stock_validation items) as [[it p]|] eqn:Hval.
  - apply stock_validation_Some in Hval as [Hin Hlt]. simpl in Hlt.
    apply elem_of_joined in Hin as [Hin Hp].
    unfold items_of in Hin. apply list_elem_of_filter in Hin as [Hc Hin].
    destruct items as [|row rows]; [by apply not_elem_of_nil in Hjoin0|].
    eexists. split; [reflexivity|]. split; [reflexivity|].
    intros _ _. exists it, p. repeat split; try done.
    apply elem_of_getLines. by rewrite Hc.
  - exfalso.
    pose proof (proj1 (stock_validation_None items) Hval _ Hjoin0) as Hle.
    simpl in Hle. lia.
Qed.

Lemma fresh_store_constraints ps : db_constraints (fresh_store ps).
Proof.
  split; simpl; try (intros ? H; by apply not_elem_of_nil in H);
    try (intros; simplify_map_eq; done).
  constructor.
Qed.

Lemma shop_constraints : db_constraints shop.
Proof. apply fresh_store_constraints. Qed.

Lemma checkout_insufficient_stock_atomic_witness :
  ∃ r, post_checkout 7 main_st short_cart = (short_cart, r) ∧
       status_code r = HTTP_400_BAD_REQUEST ∧
       ∀ address,
         CharField_run_validation 500 (req_shipping_address main_st) = Ok address →
         ∃ it p, it ∈ getLines short_cart 7 ∧
                 products short_cart !! ci_product it = Some p ∧
                 stock p < ci_quantity it ∧
                 r = {| status_code := HTTP_400_BAD_REQUEST;
                        data := Detail ("Insufficient stock for " +:+ title p)
                                       (Some (ci_product it)) |}.
Proof.
  apply (checkout_insufficient_stock_atomic 7 main_st short_cart).
  exists {| ci_id := 2; ci_cart := 1; ci_product := 2; ci_quantity := 5 |}, cable.
  split; [|split].
  - vm_compute. right. left.
  - reflexivity.
  - simpl. lia.
Defined.

(** C6, as the code has it.  A checkout with a valid shipping address by a
    shopper with no cart lines answers 400 "Cart is empty."; products, cart
    lines, orders and order lines are as before and the carts of other users
    are untouched.  A shopper who has a cart leaves the whole store as it
    was; for a shopper who has none, the call creates the (empty) cart row. *)
Theorem checkout_empty_cart user request address s :
  CharField_run_validation 500 (req_shipping_address request) = Ok address →
  db_constraints s →
  getLines s user = [] →
  ∃ s', post_checkout user request s =
        (s', {| status_code := HTTP_400_BAD_REQUEST;
                data := Detail "Cart is empty." None |}) ∧
        products s' = products s ∧ cart_items s' = cart_items s ∧
        orders s' = orders s ∧ order_items s' = order_items s ∧
        (∀ u, u ≠ user → carts s' !! u = carts s !! u) ∧
        (is_Some (carts s !! user) → s' = s) ∧
        (carts s !! user = None →
         carts s' !! user = Some (next_cart_id s) ∧ getLines s' user = []).
Proof.
  intros Hvalid Hc Hlines.
  rewrite post_checkout_run, Hvalid.
  pose proof (items_of_cart_fetched user s Hc) as Hitems.
  pose proof (cart_fetched_frame user s) as Hframe.
  destruct (cart_fetched user s) as [s1 cart] eqn:Hfetch.
  simpl in Hframe. destruct Hframe as (Hp & Hci & Ho & Hoi & _ & _ & _ & Hmine & Hothers).
  rewrite Hitems, Hlines. simpl.
  exists s1. repeat split; try done.
  - intros [c Hcart]. rewrite (cart_fetched_existing _ _ _ Hcart) in Hfetch.
    by inversion Hfetch.
  - rewrite cart_fetched_new in Hfetch by done. inversion Hfetch; subst. done.
  - unfold getLines. rewrite Hmine, Hci. rewrite Hci in Hitems.
    by rewrite Hitems.
Qed.

Lemma checkout_empty_cart_witness :
  ∃ s', post_checkout 7 main_st shop =
        (s', {| status_code := HTTP_400_BAD_REQUEST;
                data := Detail "Cart is empty." None |}) ∧
        products s' = products shop ∧ cart_items s' = cart_items shop ∧
        orders s' = orders shop ∧ order_items s' = order_items shop ∧
        (∀ u, u ≠ 7 → carts s' !! u = carts shop !! u) ∧
        (is_Some (carts shop !! 7) → s' = shop) ∧
        (carts shop !! 7 = None →
         carts s' !! 7 = Some (next_cart_id shop) ∧ getLines s' 7 = []).
Proof.
  apply (checkout_empty_cart 7 main_st "123 Main St" shop).
  - reflexivity.
  - exact shop_constraints.
  - reflexivity.
Defined.

(** C6 as stated fails: the first checkout of a shopper who never had a cart
    is refused as empty, yet it leaves a new row in the cart table. *)
Lemma empty_checkout_creates_cart :
  getLines shop 7 = [] ∧
  (post_checkout 7 main_st shop).2 =
    {| status_code := HTTP_400_BAD_REQUEST; data := Detail "Cart is empty." None |} ∧
  carts shop !! 7 = None ∧
  carts (post_checkout 7 main_st shop).1 !! 7 = Some 1 ∧
  (post_checkout 7 main_st shop).1 ≠ shop.
Proof.
  repeat split; try reflexivity.
  intros H. apply (f_equal next_cart_id) in H. vm_compute in H. discriminate.
Qed.

(** ** Successful checkouts *)

(** A 201 can only come from the commit path. *)
Lemma post_checkout_created user request s s' r :
  post_checkout user request s = (s', r) →
  status_code r = HTTP_201_CREATED →
  ∃ address,
    CharField_run_validation 500 (req_shipping_address request) = Ok address ∧
    let s1 := (cart_fetched user s).1 in
    let cart := (cart_fetched user s).2 in
    let items := omap (join_product (products s1)) (items_of cart (cart_items s1)) in
    items ≠ [] ∧ stock_validation items = None ∧
    (s', r) = committed user cart address items s1.
Proof.
  rewrite post_checkout_run. intros Hrun Hcode.
  destruct (CharField_run_validation 500 (req_shipping_address request)) as [address|e].
  - exists address. split; [done|].
    destruct (cart_fetched user s) as [s1 cart]. cbv zeta in *. simpl.
    destruct (omap (join_product (products s1)) (items_of cart (cart_items s1)))
      as [|row rows].
    { inversion Hrun; subst. discriminate. }
    destruct (stock_validation (row :: rows)) as [[it p]|].
    { inversion Hrun; subst. discriminate. }
    done.
  - unfold dispatch, raise in Hrun.
    destruct e; inversion Hrun; subst; discriminate.
Qed.

(** With the constraints in force the cart of a successful checkout existed
    before the call, and its lines are the shopper's. *)
Lemma post_checkout_created_cart user request s s' r :
  db_constraints s →
  post_checkout user request s = (s', r) →
  status_code r = HTTP_201_CREATED →
  ∃ address cart,
    CharField_run_validation 500 (req_shipping_address request) = Ok address ∧
    carts s !! user = Some cart ∧
    let items := omap (join_product (products s)) (getLines s user) in
    items ≠ [] ∧ stock_validation items = None ∧
    (s', r) = committed user cart address items s.
Proof.
  intros Hc Hrun Hcode.
  destruct (post_checkout_created _ _ _ _ _ Hrun Hcode) as (address & Hvalid & H).
  pose proof (items_of_cart_fetched user s Hc) as Hitems.
  destruct (carts s !! user) as [cart|] eqn:Hcart.
  - rewrite (cart_fetched_existing _ _ _ Hcart) in H, Hitems. simpl in H.
    exists address, cart. rewrite <- Hitems. done.
  - destruct (cart_fetched user s) as [s1 cart]. simpl in H.
    rewrite Hitems in H. unfold getLines in H. rewrite Hcart in H.
    by destruct H as [? _].
Qed.

Lemma foldl_deduct_other items : ∀ ps pid,
  (∀ row, row ∈ items → ci_product row.1 ≠ pid) →
  foldl deduct ps items !! pid = ps !! pid.
Proof.
  induction items as [|row rest IH]; intros ps pid Hne; [done|].
  simpl. rewrite IH by (intros r Hr; apply Hne; by right).
  unfold deduct. apply lookup_alter_ne. apply Hne. left.
Qed.


Lemma foldl_deduct_nonneg items : ∀ ps,
  (∀ row, row ∈ items → ci_quantity row.1 ≤ stock row.2) →
  (∀ pid p, ps !! pid = Some p → 0 ≤ stock p) →
  ∀ pid p, foldl deduct ps items !! pid = Some p → 0 ≤ stock p.
Proof.
  induction items as [|row rest IH]; intros ps Hle Hps; [done|].
  simpl. apply IH.
  { intros r Hr. apply Hle. by right. }
  intros pid p. unfold deduct. rewrite lookup_alter.
  case_decide as Heq.
  - rewrite fmap_Some. intros (p0 & _ & ->). simpl.
    assert (ci_quantity row.1 ≤ stock row.2) by (apply Hle; left). lia.
  - apply Hps.
Qed.


Lemma items_of_delete_same cart (rows : list CartItem) :
  items_of cart (filter (λ it, ci_cart it ≠ cart) rows) = [].
Proof.
  unfold items_of. apply filter_none.
  intros it [Hne _]%list_elem_of_filter. done.
Qed.

Lemma items_of_delete_other cart cart' (rows : list CartItem) :
  cart' ≠ cart →
  items_of cart' (filter (λ it, ci_cart it ≠ cart) rows) = items_of cart' rows.
Proof.
  intros Hne. unfold items_of. rewrite list_filter_filter.
  apply list_filter_iff. intros it. split; [by intros [? _] | intros ->; done].
Qed.

(** C7.  After a successful checkout the shopper's cart has no lines; the
    cart table is as before, every other shopper has the lines they had, and
    a product that no line of the checked-out cart names keeps its row, and
    with it its stock. *)
Theorem checkout_clears_cart_only user request s s' r :
  db_constraints s →
  post_checkout user request s = (s', r) →
  status_code r = HTTP_201_CREATED →
  getLines s' user = [] ∧
  carts s' = carts s ∧
  (∀ u, u ≠ user → getLines s' u = getLines s u) ∧
  (∀ pid, (∀ it, it ∈ getLines s user → ci_product it ≠ pid) →
          products s' !! pid = products s !! pid).
Proof.
  intros Hc Hrun Hcode.
  destruct (post_checkout_created_cart _ _ _ _ _ Hc Hrun Hcode)
    as (address & cart & _ & Hcart & _ & _ & Heq).
  unfold committed in Heq. inversion Heq as [[Hs' Hr]]. clear Heq Hr.
  repeat split.
  - unfold getLines. simpl. rewrite Hcart. apply items_of_delete_same.
  - intros u Hu. unfold getLines. simpl.
    destruct (carts s !! u) as [cart'|] eqn:Hcart'; [|done].
    apply items_of_delete_other. intros ->.
    apply Hu. by apply (cart_pk_unique s Hc u user cart).
  - intros pid Hpid. simpl. apply foldl_deduct_other.
    intros [it p] [Hin _]%elem_of_joined. simpl. by apply Hpid.
Qed.

Lemma good_cart_constraints : db_constraints good_cart.
Proof.
  split; simpl.
  - intros u c [_ <-]%lookup_singleton_Some. lia.
  - intros u1 u2 c [<- _]%lookup_singleton_Some [<- _]%lookup_singleton_Some. done.
  - intros it Hin. exists 7. apply lookup_singleton_Some.
    repeat (apply elem_of_cons in Hin as [->|Hin]; [done|]).
    by apply not_elem_of_nil in Hin.
  - intros it Hin.
    repeat (apply elem_of_cons in Hin as [->|Hin]; [by eexists|]).
    by apply not_elem_of_nil in Hin.
  - by apply (bool_decide_unpack _).
  - intros o Hin. by apply not_elem_of_nil in Hin.
  - intros oi Hin. by apply not_elem_of_nil in Hin.
Qed.

Lemma checkout_clears_cart_only_witness :
  let s' := (post_checkout 7 main_st good_cart).1 in
  getLines s' 7 = [] ∧
  carts s' = carts good_cart ∧
  (∀ u, u ≠ 7 → getLines s' u = getLines good_cart u) ∧
  (∀ pid, (∀ it, it ∈ getLines good_cart 7 → ci_product it ≠ pid) →
          products s' !! pid = products good_cart !! pid).
Proof.
  apply (checkout_clears_cart_only 7 main_st good_cart _
           (post_checkout 7 main_st good_cart).2).
  - exact good_cart_constraints.
  - reflexivity.
  - reflexivity.
Defined.

(** ** Totals *)

Lemma fmap_imap_invariant {A B} (f : A → B) (l : list A) : ∀ (h : nat → A → A),
  (∀ i x, f (h i x) = f x) → f <$> imap h l = f <$> l.
Proof.
  induction l as [|x l IH]; intros h Hh; [done|].
  rewrite imap_cons, !fmap_cons, Hh. f_equal. apply IH. intros i y. apply Hh.
Qed.

Lemma items_of_order_new s (new_lines : list OrderItem) :
  db_constraints s →
  (∀ oi, oi ∈ new_lines → oi_order oi = next_order_id s) →
  items_of_order (next_order_id s) (order_items s ++ new_lines) = new_lines.
Proof.
  intros Hc Hnew. unfold items_of_order. rewrite filter_app.
  rewrite filter_none, filter_all; [done..|].
  intros oi Hin Heq.
  destruct (order_item_order_fk s Hc oi Hin) as (o & Ho & Hid).
  apply (order_pk_fresh s Hc) in Ho. lia.
Qed.



(** The scenario of the specification: two items at 99.99 out of a stock of
    ten give a paid order of 199.98 and leave a stock of eight. *)
Example scenario_headphones :
  let s := with_products (λ _, {[ 1 := headphones ]}) empty_db in
  let s1 := (post_add_item 7 (add 1 2) s).1 in
  let '(s2, r) := post_checkout 7 main_st s1 in
  status_code r = 201 ∧
  stock <$> products s2 !! 1 = Some 8 ∧
  (λ o, (status o, total_amount o)) <$> orders s2 = [(paid, 19998)].
Proof. vm_compute. done. Qed.

(** The other scenario: five items asked of a stock of three are refused
    with the product named, the stock stays at three and no order exists. *)
Example scenario_short_stock :
  let s := fresh_store {[ 2 := cable ]} in
  let s1 := with_cart_items
              (λ _, [{| ci_id := 1; ci_cart := 1; ci_product := 2; ci_quantity := 5 |}])
              (get_cart 7 s).1 in
  let '(s2, r) := post_checkout 7 main_st s1 in
  r = {| status_code := 400; data := Detail "Insufficient stock for Cable" (Some 2) |} ∧
  stock <$> products s2 !! 2 = Some 3 ∧
  orders s2 = [].
Proof. vm_compute. done. Qed.

(** ** The cart views in direct style *)

Lemma post_add_item_run user request s :
  post_add_item user request s =
  match req_product_id request with
  | None => (s, bad_request "This field is required.")
  | Some pid =>
      let q := default 1 (req_quantity request) in
      match Product_get_active s pid with
      | None => (s, bad_request "Product not found or inactive.")
      | Some p =>
          if decide (q < 1) then (s, bad_request "Quantity must be at least 1.")
          else if decide (stock p < q)
          then (s, bad_request "Insufficient stock for this product.")
          else
            let s1 := (cart_fetched user s).1 in
            let cart := (cart_fetched user s).2 in
            match filter (λ it, ci_cart it = cart ∧ ci_product it = pid)
                         (cart_items s1) with
            | [] =>
                let s2 := (CartItem_create cart pid q s1).1 in
                (s2, {| status_code := HTTP_200_OK; data := cart_data user cart s2 |})
            | [item] =>
                let s2 := with_cart_items (fmap (requantify item q)) s1 in
                (s2, {| status_code := HTTP_200_OK; data := cart_data user cart s2 |})
            | _ => (s1, {| status_code := 500; data := ServerError |})
            end
      end
  end.
Proof.
  unfold post_add_item, dispatch, add_item, AddToCartSerializer_is_valid. unfold_M.
  destruct (req_product_id request) as [pid|]; [|done].
  cbv zeta. destruct (Product_get_active s pid) as [p|] eqn:Hp; [|done].
  destruct (decide (default 1 (req_quantity request) < 1)); [done|].
  destruct (decide (stock p < default 1 (req_quantity request))) as [|Hstock]; [done|].
  unfold get_object_or_404. rewrite Hp.
  destruct (decide (stock p < default 1 (req_quantity request))); [done|].
  rewrite get_or_create_cart_run.
  destruct (cart_fetched user s) as [s1 cart]. simpl.
  unfold CartItem_get_or_create.
  destruct (filter _ (cart_items s1)) as [|item [|item' rest]]; [| |done].
  - unfold_M. done.
  - unfold_M. unfold CartSerializer_data, CartItem_save_quantity,
      cart_items_with_product. unfold_M. done.
Qed.

Lemma post_remove_item_run user request s :
  post_remove_item user request s =
  if falsy (req_product_id request) then (s, bad_request "product_id is required")
  else
    let s1 := (cart_fetched user s).1 in
    let cart := (cart_fetched user s).2 in
    let s2 := with_cart_items
      (filter (λ it, ¬ (ci_cart it = cart ∧
                        ci_product it = default 0 (req_product_id request)))) s1 in
    (s2, {| status_code := HTTP_200_OK; data := cart_data user cart s2 |}).
Proof.
  unfold post_remove_item, dispatch, remove_item. unfold_M.
  destruct (falsy (req_product_id request)); [done|].
  rewrite get_or_create_cart_run.
  destruct (cart_fetched user s) as [s1 cart]. done.
Qed.

Lemma post_clear_run user s :
  post_clear user s =
  (with_cart_items (filter (λ it, ci_cart it ≠ (cart_fetched user s).2))
                   (cart_fetched user s).1,
   {| status_code := HTTP_200_OK; data := Detail "Cart cleared." None |}).
Proof.
  unfold post_clear, dispatch, clear. unfold_M.
  rewrite get_or_create_cart_run. done.
Qed.

Lemma get_cart_run user s :
  get_cart user s =
  ((cart_fetched user s).1,
   {| status_code := HTTP_200_OK;
      data := cart_data user (cart_fetched user s).2 (cart_fetched user s).1 |}).
Proof.
  unfold get_cart, dispatch, list_cart. unfold_M.
  rewrite get_or_create_cart_run. done.
Qed.

(** Only a checkout writes the product table. *)
Lemma cart_views_keep_products user req s :
  (∀ request, req ≠ Checkout request) →
  products (handle user req s).1 = products s.
Proof.
  intros Hreq. pose proof (cart_fetched_frame user s) as (Hp & _).
  destruct req as [|request|request| |request]; simpl.
  - by rewrite get_cart_run.
  - rewrite post_add_item_run.
    destruct (req_product_id request) as [pid|]; [|done]. cbv zeta.
    destruct (Product_get_active s pid) as [p|]; [|done].
    repeat case_decide; try done.
    destruct (filter _ _) as [|item [|item' rest]]; done.
  - rewrite post_remove_item_run.
    by destruct (falsy (req_product_id request)).
  - by rewrite post_clear_run.
  - by destruct (Hreq request).
Qed.

(** ** Stock *)

Lemma post_checkout_stock_nonneg user request s :
  stock_nonneg s → stock_nonneg (post_checkout user request s).1.
Proof.
  intros Hs. rewrite post_checkout_run.
  destruct (CharField_run_validation 500 (req_shipping_address request))
    as [address|e]; [|by destruct e].
  pose proof (cart_fetched_frame user s) as (Hp & _).
  destruct (cart_fetched user s) as [s1 cart]. simpl in Hp. cbv zeta.
  assert (Hs1 : stock_nonneg s1) by (unfold stock_nonneg; by rewrite Hp).
  destruct (omap (join_product (products s1)) (items_of cart (cart_items s1)))
    as [|row rows] eqn:Hitems; [done|].
  destruct (stock_validation (row :: rows)) as [[it p]|] eqn:Hval; [done|].
  unfold committed, stock_nonneg, map_Forall. simpl.
  apply (foldl_deduct_nonneg (row :: rows) (products s1)); [|done].
  by apply stock_validation_None.
Qed.

Lemma handle_stock_nonneg user req s :
  stock_nonneg s → stock_nonneg (handle user req s).1.
Proof.
  intros Hs. destruct req as [|request|request| |request];
    try (unfold stock_nonneg; rewrite cart_views_keep_products; done).
  by apply post_checkout_stock_nonneg.
Qed.

Lemma run_stock_nonneg trace : ∀ s, stock_nonneg s → stock_nonneg (run trace s).
Proof.
  induction trace as [|[user req] trace IH]; intros s Hs; [done|].
  simpl. apply IH. by apply handle_stock_nonneg.
Qed.




(** ** Adding and removing lines *)

Lemma filter_fmap_stable {A} (P : A → Prop) `{∀ x, Decision (P x)}
    (f : A → A) (l : list A) :
  (∀ x, P (f x) ↔ P x) → filter P (f <$> l) = f <$> filter P l.
Proof.
  intros Hf. induction l as [|x l IH]; [done|].
  rewrite fmap_cons, !filter_cons. destruct (decide (P x)) as [Hx|Hx].
  - rewrite decide_True by (by apply Hf). by rewrite fmap_cons, IH.
  - rewrite decide_False by (by rewrite Hf). done.
Qed.

Lemma requantify_keys item q row :
  ci_cart (requantify item q row) = ci_cart row ∧
  ci_product (requantify item q row) = ci_product row.
Proof. unfold requantify. by case_decide. Qed.



Lemma Product_get_active_Some s pid p :
  Product_get_active s pid = Some p ↔ products s !! pid = Some p ∧ is_active p = true.
Proof.
  unfold Product_get_active. destruct (products s !! pid) as [p0|].
  - destruct (is_active p0) eqn:E; split.
    + by intros [= ->].
    + by intros [[= ->] _].
    + done.
    + intros [[= ->] Hact]. congruence.
  - split; [done | by intros [? _]].
Qed.

(** C9.  [add_item] answers 400 and returns the store it was given whenever
    the requested product is missing or inactive, the quantity is below 1,
    or the stock of the product is below the quantity; and whenever the
    store it returns differs from the one it was given, the product exists,
    is active, and holds at least the quantity, which is at least 1. *)
Theorem add_item_guards user request s s' r :
  post_add_item user request s = (s', r) →
  let q := default 1 (req_quantity request) in
  ((requested_product s request = None ∨
    (∃ p, requested_product s request = Some p ∧
          (is_active p = false ∨ stock p < q)) ∨
    q < 1) →
   s' = s ∧ status_code r = HTTP_400_BAD_REQUEST) ∧
  (s' ≠ s →
   ∃ p, requested_product s request = Some p ∧ is_active p = true ∧
        1 ≤ q ∧ q ≤ stock p).
Proof.
  intros Hrun q. rewrite post_add_item_run in Hrun. unfold requested_product.
  destruct (req_product_id request) as [pid|]; simpl;
    [|inversion Hrun; subst; split; [done | by intros []]].
  cbv zeta in Hrun. fold q in Hrun.
  destruct (Product_get_active s pid) as [p|] eqn:Hget.
  - apply Product_get_active_Some in Hget as [Hp Hact].
    destruct (decide (q < 1)) as [Hq|Hq];
      [inversion Hrun; subst; split; [done | by intros []]|].
    destruct (decide (stock p < q)) as [Hst|Hst];
      [inversion Hrun; subst; split; [done | by intros []]|].
    split.
    + intros [Hnone|[(p' & Hp' & Hbad)|Hlow]]; [congruence| |lia].
      rewrite Hp in Hp'. inversion Hp'; subst p'.
      destruct Hbad; [congruence | lia].
    + intros _. exists p. repeat split; [done..|lia|lia].
  - inversion Hrun; subst. split; [done | by intros []].
Qed.

Lemma add_item_guards_witness :
  let q := default 1 (req_quantity (add 2 5)) in
  ((requested_product good_cart (add 2 5) = None ∨
    (∃ p, requested_product good_cart (add 2 5) = Some p ∧
          (is_active p = false ∨ stock p < q)) ∨
    q < 1) →
   good_cart = good_cart ∧
   status_code (post_add_item 7 (add 2 5) good_cart).2 = HTTP_400_BAD_REQUEST) ∧
  (good_cart ≠ good_cart →
   ∃ p, requested_product good_cart (add 2 5) = Some p ∧ is_active p = true ∧
        1 ≤ q ∧ q ≤ stock p).
Proof.
  apply (add_item_guards 7 (add 2 5) good_cart good_cart
           (post_add_item 7 (add 2 5) good_cart).2).
  reflexivity.
Defined.

Lemma filter_idemp {A} (P : A → Prop) `{∀ x, Decision (P x)} (l : list A) :
  filter P (filter P l) = filter P l.
Proof. apply filter_all. by intros x [? _]%list_elem_of_filter. Qed.





(** ** Lock order *)

Lemma joined_products ps (rows : list CartItem) :
  (∀ it, it ∈ rows → is_Some (ps !! ci_product it)) →
  (λ row, ci_product row.1) <$> omap (join_product ps) rows = ci_product <$> rows.
Proof.
  induction rows as [|it rows IH]; intros Hfk; [done|].
  destruct (Hfk it) as [p Hp]; [left|].
  simpl. unfold join_product at 1. rewrite Hp. simpl. f_equal.
  apply IH. intros it' Hin. apply Hfk. by right.
Qed.




(** ** Serialization failures *)

(** C5, as the code has it.  The view makes one attempt: when the store
    fails the transaction with a serialization failure the failure is
    surfaced at once as a server error, with the store as it was and
    whatever a further attempt would have met; the view is the engine of the
    specification with no retry. *)
Theorem checkout_surfaces_conflict_at_once verdicts user request s :
  serve_checkout (true :: verdicts) user request s =
    (s, {| status_code := 500; data := ServerError |}) ∧
  serve_checkout (false :: verdicts) user request s = post_checkout user request s ∧
  serve_checkout verdicts user request s =
    dispatch (spec_checkout_with_retry 0 verdicts user request) s.
Proof.
  split; [done|]. split; [done|].
  unfold serve_checkout, dispatch. simpl.
  destruct (checkout (default false (head verdicts)) user request s)
    as [s' [r|[]]] eqn:Hrun; try done.
  destruct verdicts as [|[] verdicts]; simpl in Hrun;
    unfold checkout, transaction_atomic in Hrun.
  - destruct (checkout_body user request s) as [? [|]]; by inversion Hrun.
  - by inversion Hrun.
  - destruct (checkout_body user request s) as [? [|]]; by inversion Hrun.
Qed.

(** C5 as stated fails: with a first transaction refused and a second one
    that would pass, the view answers 500 where an engine retrying once
    answers 201; no positive number of retries describes the view. *)
Lemma checkout_does_not_retry :
  status_code (serve_checkout [true; false] 7 main_st good_cart).2 = 500 ∧
  status_code (dispatch (spec_checkout_with_retry 1 [true; false] 7 main_st)
                 good_cart).2 = 201 ∧
  ¬ ∃ n, ∀ verdicts user request s,
      serve_checkout verdicts user request s =
      dispatch (spec_checkout_with_retry (S n) verdicts user request) s.
Proof.
  split; [reflexivity|]. split; [reflexivity|].
  intros [n H]. specialize (H [true; false] 7 main_st good_cart).
  apply (f_equal (λ out, status_code out.2)) in H.
  destruct n; vm_compute in H; discriminate.
Qed.

(** ** The constraints are kept by every request *)

Lemma cart_fetched_constraints user s :
  db_constraints s → db_constraints (cart_fetched user s).1.
Proof.
  intros Hc. destruct (carts s !! user) as [cart|] eqn:Hcart.
  { by rewrite (cart_fetched_existing _ _ _ Hcart). }
  rewrite cart_fetched_new by done. destruct Hc as [Hfresh Huniq Hfk Hpfk Hnd Ho Hoi].
  split; simpl; try done.
  - intros u c [[<- <-]|[_ Hu]]%lookup_insert_Some; [lia|].
    apply Hfresh in Hu. lia.
  - intros u1 u2 c [[<- <-]|[Hne1 Hu1]]%lookup_insert_Some
                   [[<- Heq]|[Hne2 Hu2]]%lookup_insert_Some; try done.
    + apply Hfresh in Hu2. lia.
    + apply Hfresh in Hu1. lia.
    + by apply (Huniq u1 u2 c).
  - intros it Hin. destruct (Hfk it Hin) as [u Hu]. exists u.
    rewrite lookup_insert_ne; [done|]. intros <-. congruence.
Qed.

Lemma NoDup_fmap_filter {A B} (f : A → B) (P : A → Prop) `{∀ x, Decision (P x)}
    (l : list A) :
  NoDup (f <$> l) → NoDup (f <$> filter P l).
Proof.
  induction l as [|x l IH]; [done|].
  rewrite fmap_cons. intros [Hx Hnd]%NoDup_cons.
  rewrite filter_cons. case_decide; [|by apply IH].
  rewrite fmap_cons. apply NoDup_cons. split; [|by apply IH].
  intros (y & Hy & [_ Hin]%list_elem_of_filter)%list_elem_of_fmap.
  apply Hx. rewrite Hy. by apply list_elem_of_fmap_2.
Qed.

Lemma delete_lines_constraints (P : CartItem → Prop) `{∀ x, Decision (P x)} s :
  db_constraints s → db_constraints (with_cart_items (filter P) s).
Proof.
  intros [Hfresh Huniq Hfk Hpfk Hnd Ho Hoi]. split; simpl; try done.
  - intros it [_ Hin]%list_elem_of_filter. by apply Hfk.
  - intros it [_ Hin]%list_elem_of_filter. by apply Hpfk.
  - by apply NoDup_fmap_filter.
Qed.

Lemma create_line_constraints user cart pid q s :
  db_constraints s →
  carts s !! user = Some cart →
  is_Some (products s !! pid) →
  filter (λ it, ci_cart it = cart ∧ ci_product it = pid) (cart_items s) = [] →
  db_constraints (CartItem_create cart pid q s).1.
Proof.
  intros [Hfresh Huniq Hfk Hpfk Hnd Ho Hoi] Hcart Hprod Hnone.
  split; simpl; try done.
  - intros it [Hin|Hin]%elem_of_app; [by apply Hfk|].
    apply list_elem_of_singleton in Hin as ->. by exists user.
  - intros it [Hin|Hin]%elem_of_app; [by apply Hpfk|].
    by apply list_elem_of_singleton in Hin as ->.
  - rewrite fmap_app. apply NoDup_app. split; [done|]. split.
    + intros key (it & -> & Hin)%list_elem_of_fmap Hkey. simpl in Hkey.
      apply list_elem_of_singleton in Hkey. inversion Hkey as [[Hc Hp]].
      by apply (filter_nil_not_elem_of _ _ it Hnone).
    + simpl. apply NoDup_singleton.
Qed.

Lemma requantify_constraints item q s :
  db_constraints s → db_constraints (with_cart_items (fmap (requantify item q)) s).
Proof.
  intros [Hfresh Huniq Hfk Hpfk Hnd Ho Hoi]. split; simpl; try done.
  - intros it (row & -> & Hin)%list_elem_of_fmap.
    destruct (requantify_keys item q row) as [-> _]. by apply Hfk.
  - intros it (row & -> & Hin)%list_elem_of_fmap.
    destruct (requantify_keys item q row) as [_ ->]. by apply Hpfk.
  - rewrite <- list_fmap_compose.
    rewrite (list_fmap_ext _ (λ it, (ci_cart it, ci_product it))); [done|].
    intros i row _. simpl. by destruct (requantify_keys item q row) as [-> ->].
Qed.

Lemma foldl_deduct_is_Some items : ∀ ps pid,
  is_Some (ps !! pid) → is_Some (foldl deduct ps items !! pid).
Proof.
  induction items as [|row rest IH]; intros ps pid Hp; [done|].
  simpl. apply IH. unfold deduct. by apply lookup_alter_is_Some.
Qed.

Lemma committed_constraints user cart address items s :
  db_constraints s → db_constraints (committed user cart address items s).1.
Proof.
  intros [Hfresh Huniq Hfk Hpfk Hnd Ho Hoi]. unfold committed.
  set (upd := λ row : Order, if decide (order_id row = next_order_id s)
                             then set_total_status _ paid row else row).
  assert (Hupd : ∀ row, order_id (upd row) = order_id row)
    by (intros row; unfold upd; by case_decide).
  split; simpl; try done.
  - intros it [_ Hin]%list_elem_of_filter. by apply Hfk.
  - intros it [_ Hin]%list_elem_of_filter. by apply foldl_deduct_is_Some, Hpfk.
  - by apply NoDup_fmap_filter.
  - intros o (row & -> & Hin)%list_elem_of_fmap. rewrite Hupd.
    apply elem_of_app in Hin as [Hin|Hin].
    + apply Ho in Hin. lia.
    + apply list_elem_of_singleton in Hin as ->. simpl. lia.
  - intros oi [Hin|Hin]%elem_of_app.
    + destruct (Hoi oi Hin) as (o & Hoin & Hid). exists (upd o).
      split; [|by rewrite Hupd].
      apply list_elem_of_fmap_2, elem_of_app. by left.
    + apply elem_of_lookup_imap in Hin as (i & y & -> & Hy).
      apply list_elem_of_lookup_2, list_elem_of_fmap in Hy as (row & -> & _).
      eexists. split.
      * apply list_elem_of_fmap_2, elem_of_app. right. apply list_elem_of_singleton.
        reflexivity.
      * by rewrite Hupd.
Qed.

Lemma handle_constraints user req s :
  db_constraints s → db_constraints (handle user req s).1.
Proof.
  intros Hc. pose proof (cart_fetched_constraints user s Hc) as Hc1.
  pose proof (cart_fetched_frame user s) as (Hp & _ & _ & _ & _ & _ & _ & Hmine & _).
  destruct req as [|request|request| |request]; simpl.
  - by rewrite get_cart_run.
  - rewrite post_add_item_run.
    destruct (req_product_id request) as [pid|]; [|done]. cbv zeta.
    destruct (Product_get_active s pid) as [p|] eqn:Hget; [|done].
    apply Product_get_active_Some in Hget as [Hget _].
    repeat case_decide; try done.
    destruct (filter _ _) as [|item [|item' rest]] eqn:Hfound; simpl; [| |done].
    + apply (create_line_constraints user); [done..| |done].
      rewrite Hp. by eexists.
    + by apply requantify_constraints.
  - rewrite post_remove_item_run.
    destruct (falsy (req_product_id request)); [done|].
    by apply delete_lines_constraints.
  - rewrite post_clear_run. by apply delete_lines_constraints.
  - rewrite post_checkout_run.
    destruct (CharField_run_validation 500 (req_shipping_address request))
      as [address|e]; [|by destruct e].
    destruct (cart_fetched user s) as [s1 cart]. cbv zeta.
    destruct (omap _ _) as [|row rows]; [done|].
    destruct (stock_validation (row :: rows)) as [[it p]|]; [done|].
    by apply committed_constraints.
Qed.



Lemma reachable_stock_nonneg ps trace :
  map_Forall (λ _ p, 0 ≤ stock p) ps → stock_nonneg (run trace (fresh_store ps)).
Proof. intros Hps. by apply run_stock_nonneg. Qed.

(** * Further properties of the cart and checkout views *)

(** ** What the cart views leave alone *)

Lemma cart_views_frame user s :
  same_catalogue_and_orders s (get_cart user s).1 ∧
  (∀ request, same_catalogue_and_orders s (post_add_item user request s).1) ∧
  (∀ request, same_catalogue_and_orders s (post_remove_item user request s).1) ∧
  same_catalogue_and_orders s (post_clear user s).1.
Proof.
  pose proof (cart_fetched_frame user s) as (Hp & _ & Ho & Hoi & _).
  unfold same_catalogue_and_orders. split; [|split; [|split]].
  - by rewrite get_cart_run.
  - intros request. rewrite post_add_item_run.
    destruct (req_product_id request) as [pid|]; [|done]. cbv zeta.
    destruct (Product_get_active s pid) as [p|]; [|done].
    repeat case_decide; try done.
    destruct (filter _ _) as [|item [|item' rest]]; done.
  - intros request. rewrite post_remove_item_run.
    by destruct (falsy (req_product_id request)).
  - by rewrite post_clear_run.
Qed.

(** X1.  Reading the cart, adding to it, removing from it and clearing it
    write neither the product table nor the orders nor the order lines:
    putting a product in a cart reserves no stock. *)
Theorem cart_views_write_only_carts user request s :
  same_catalogue_and_orders s (get_cart user s).1 ∧
  same_catalogue_and_orders s (post_add_item user request s).1 ∧
  same_catalogue_and_orders s (post_remove_item user request s).1 ∧
  same_catalogue_and_orders s (post_clear user s).1.
Proof.
  destruct (cart_views_frame user s) as (Hget & Hadd & Hrem & Hclr).
  split; [exact Hget|]. split; [apply Hadd|]. split; [apply Hrem | exact Hclr].
Qed.

(** ** Primary keys and quantities along a run *)

Lemma cart_fetched_pks_ok user s :
  cart_item_pks_ok s → cart_item_pks_ok (cart_fetched user s).1.
Proof.
  pose proof (cart_fetched_frame user s) as (_ & Hci & _ & _ & _ & _ & Hn & _).
  unfold cart_item_pks_ok. by rewrite Hci, Hn.
Qed.

Lemma delete_lines_pks_ok (P : CartItem → Prop) `{∀ x, Decision (P x)} s :
  cart_item_pks_ok s → cart_item_pks_ok (with_cart_items (filter P) s).
Proof.
  intros [Hnd Hfresh]. split; simpl.
  - by apply NoDup_fmap_filter.
  - intros it [_ Hin]%list_elem_of_filter. by apply Hfresh.
Qed.

Lemma requantify_id item q row : ci_id (requantify item q row) = ci_id row.
Proof. unfold requantify. by case_decide. Qed.

Lemma handle_pks_ok user req s :
  cart_item_pks_ok s → cart_item_pks_ok (handle user req s).1.
Proof.
  intros Hpk. pose proof (cart_fetched_pks_ok user s Hpk) as Hpk1.
  destruct req as [|request|request| |request]; simpl.
  - by rewrite get_cart_run.
  - rewrite post_add_item_run.
    destruct (req_product_id request) as [pid|]; [|done]. cbv zeta.
    destruct (Product_get_active s pid) as [p|]; [|done].
    repeat case_decide; try done.
    destruct Hpk1 as [Hnd Hfresh].
    destruct (filter _ _) as [|item [|item' rest]]; simpl; [| |done].
    + split; simpl.
      * rewrite fmap_app. apply NoDup_app. split; [done|]. split; [|apply NoDup_singleton].
        intros i (it & -> & Hin)%list_elem_of_fmap Hi.
        apply list_elem_of_singleton in Hi. simpl in Hi. apply Hfresh in Hin. lia.
      * intros it [Hin|Hin]%elem_of_app; [apply Hfresh in Hin; lia|].
        apply list_elem_of_singleton in Hin as ->. simpl. lia.
    + split; simpl.
      * rewrite <- list_fmap_compose.
        rewrite (list_fmap_ext _ ci_id); [done|].
        intros i row _. apply requantify_id.
      * intros it (row & -> & Hin)%list_elem_of_fmap. rewrite requantify_id.
        by apply Hfresh.
  - rewrite post_remove_item_run.
    destruct (falsy (req_product_id request)); [done|].
    by apply delete_lines_pks_ok.
  - rewrite post_clear_run. by apply delete_lines_pks_ok.
  - rewrite post_checkout_run.
    destruct (CharField_run_validation 500 (req_shipping_address request))
      as [address|e]; [|by destruct e].
    destruct (cart_fetched user s) as [s1 cart]. cbv zeta.
    destruct (omap _ _) as [|row rows]; [done|].
    destruct (stock_validation (row :: rows)) as [[it p]|]; [done|].
    destruct Hpk1 as [Hnd Hfresh]. split; simpl.
    + by apply NoDup_fmap_filter.
    + intros it [_ Hin]%list_elem_of_filter. by apply Hfresh.
Qed.

Lemma run_pks_ok trace : ∀ s, cart_item_pks_ok s → cart_item_pks_ok (run trace s).
Proof.
  induction trace as [|[user req] trace IH]; intros s Hpk; [done|].
  simpl. apply IH. by apply handle_pks_ok.
Qed.


Lemma cart_fetched_quantities user s :
  quantities_positive s → quantities_positive (cart_fetched user s).1.
Proof.
  pose proof (cart_fetched_frame user s) as (_ & Hci & _ & Hoi & _).
  unfold quantities_positive. by rewrite Hci, Hoi.
Qed.

Lemma delete_lines_quantities (P : CartItem → Prop) `{∀ x, Decision (P x)} s :
  quantities_positive s → quantities_positive (with_cart_items (filter P) s).
Proof.
  intros [Hci Hoi]. split; simpl; [|done].
  intros it [_ Hin]%list_elem_of_filter. by apply Hci.
Qed.

Lemma handle_quantities user req s :
  quantities_positive s → quantities_positive (handle user req s).1.
Proof.
  intros Hq. pose proof (cart_fetched_quantities user s Hq) as Hq1.
  destruct req as [|request|request| |request]; simpl.
  - by rewrite get_cart_run.
  - rewrite post_add_item_run.
    destruct (req_product_id request) as [pid|]; [|done]. cbv zeta.
    destruct (Product_get_active s pid) as [p|]; [|done].
    repeat case_decide; try done.
    destruct Hq1 as [Hci Hoi].
    destruct (filter _ _) as [|item [|item' rest]]; simpl; [| |done].
    + split; simpl; [|done].
      intros it [Hin|Hin]%elem_of_app; [by apply Hci|].
      apply list_elem_of_singleton in Hin as ->. simpl. lia.
    + split; simpl; [|done].
      intros it (row & -> & Hin)%list_elem_of_fmap. unfold requantify.
      case_decide; [simpl; lia | by apply Hci].
  - rewrite post_remove_item_run.
    destruct (falsy (req_product_id request)); [done|].
    by apply delete_lines_quantities.
  - rewrite post_clear_run. by apply delete_lines_quantities.
  - rewrite post_checkout_run.
    destruct (CharField_run_validation 500 (req_shipping_address request))
      as [address|e]; [|by destruct e].
    destruct (cart_fetched user s) as [s1 cart]. cbv zeta.
    destruct (omap _ _) as [|row rows] eqn:Hitems; [done|].
    destruct (stock_validation (row :: rows)) as [[it p]|]; [done|].
    destruct Hq1 as [Hci Hoi]. rewrite <- Hitems. split; simpl.
    + intros it [_ Hin]%list_elem_of_filter. by apply Hci.
    + intros oi [Hin|Hin]%elem_of_app; [by apply Hoi|].
      apply elem_of_lookup_imap in Hin as (i & y & -> & Hy).
      apply list_elem_of_lookup_2, list_elem_of_fmap in Hy as ([it p] & -> & Hrow).
      simpl.
      apply elem_of_joined in Hrow as [[_ Hin]%list_elem_of_filter _].
      by apply Hci.
Qed.

Lemma run_quantities trace : ∀ s, quantities_positive s → quantities_positive (run trace s).
Proof.
  induction trace as [|[user req] trace IH]; intros s Hq; [done|].
  simpl. apply IH. by apply handle_quantities.
Qed.

(** X2.  Along every run from a store that holds only a catalogue, every
    cart line and every order line is for at least one unit: the quantity
    check of [AddToCartSerializer.validate] guards the only writes of a
    quantity, and order lines copy cart lines. *)
Theorem quantities_at_least_one ps trace :
  quantities_positive (run trace (fresh_store ps)).
Proof.
  apply run_quantities. split; simpl; intros ? Hin; by apply not_elem_of_nil in Hin.
Qed.

(** ** The catalogue along a run *)

Lemma sold_down_refl p : sold_down p p.
Proof. by split. Qed.

Lemma sold_down_trans p1 p2 p3 : sold_down p1 p2 → sold_down p2 p3 → sold_down p1 p3.
Proof. intros [Hc1 Hs1] [Hc2 Hs2]. split; [congruence | lia]. Qed.

Lemma foldl_deduct_sold_down items (ps0 : gmap Z Product) : ∀ ps : gmap Z Product,
  (∀ row, row ∈ items → ps0 !! ci_product row.1 = Some row.2 ∧ 0 ≤ ci_quantity row.1) →
  (∀ pid, option_Forall2 sold_down (ps0 !! pid) (ps !! pid)) →
  ∀ pid, option_Forall2 sold_down (ps0 !! pid) (foldl deduct ps items !! pid).
Proof.
  induction items as [|[it p] rest IH]; intros ps Hrows Hps; [done|].
  simpl. apply IH; [intros r Hr; apply Hrows; by right|].
  intros pid. unfold deduct. simpl. rewrite lookup_alter. case_decide as Heq.
  - subst pid. destruct (Hrows (it, p)) as [Hp Hq]; [left|]. simpl in Hp, Hq.
    specialize (Hps (ci_product it)). rewrite Hp in Hps |- *.
    inversion Hps as [p0 p1 [Hcard Hstock]|]; subst. simpl.
    constructor. split; [done | simpl; lia].
  - apply Hps.
Qed.

Lemma handle_sold_down user req s pid :
  quantities_positive s →
  option_Forall2 sold_down (products s !! pid) (products (handle user req s).1 !! pid).
Proof.
  intros Hq.
  assert (Hrefl : ∀ ps : gmap Z Product, option_Forall2 sold_down (ps !! pid) (ps !! pid)).
  { intros ps. destruct (ps !! pid); constructor. apply sold_down_refl. }
  destruct req as [|request|request| |request];
    try (rewrite cart_views_keep_products by done; apply Hrefl).
  simpl. rewrite post_checkout_run.
  destruct (CharField_run_validation 500 (req_shipping_address request))
    as [address|e]; [|destruct e; apply Hrefl].
  pose proof (cart_fetched_frame user s) as (Hp & Hci & _).
  destruct (cart_fetched user s) as [s1 cart]. simpl in Hp, Hci. cbv zeta.
  destruct (omap _ _) as [|row rows] eqn:Hitems; [simpl; rewrite Hp; apply Hrefl|].
  destruct (stock_validation (row :: rows)) as [[it p]|];
    [simpl; rewrite Hp; apply Hrefl|].
  rewrite <- Hitems. cbn [committed fst products]. rewrite <- Hp.
  apply foldl_deduct_sold_down.
  - intros [it p] Hrow.
    apply elem_of_joined in Hrow as [[_ Hin]%list_elem_of_filter Hprod].
    split; [done|]. simpl. rewrite Hci in Hin. apply Hq in Hin. lia.
  - intros pid'. destruct (products s1 !! pid'); constructor. apply sold_down_refl.
Qed.

(** X3.  Along every run of the core from a store whose lines are for at
    least one unit, the catalogue keeps its products: no product appears or
    disappears, each keeps its title, price and active flag, and no stock
    ever goes up. *)
Theorem catalogue_only_sold_down s trace pid :
  quantities_positive s →
  option_Forall2 sold_down (products s !! pid) (products (run trace s) !! pid).
Proof.
  revert s. induction trace as [|[user req] trace IH]; intros s Hq.
  - simpl. destruct (products s !! pid); constructor. apply sold_down_refl.
  - simpl. pose proof (handle_sold_down user req s pid Hq) as Hstep.
    pose proof (IH _ (handle_quantities user req s Hq)) as Hrest.
    destruct Hstep as [p1 p2 H12|]; inversion Hrest; subst; constructor.
    by apply (sold_down_trans p1 p2).
Qed.

Lemma good_cart_quantities : quantities_positive good_cart.
Proof.
  split; simpl.
  - intros it Hin.
    repeat (apply elem_of_cons in Hin as [->|Hin]; [simpl; lia|]).
    by apply not_elem_of_nil in Hin.
  - intros oi Hin. by apply not_elem_of_nil in Hin.
Qed.

Lemma catalogue_only_sold_down_witness :
  option_Forall2 sold_down (products good_cart !! 1)
    (products (run [(7, Checkout main_st)] good_cart) !! 1).
Proof.
  apply (catalogue_only_sold_down good_cart [(7, Checkout main_st)] 1).
  exact good_cart_quantities.
Defined.

(** ** The cart as a map from products to quantities *)

Lemma NoDup_fmap_eq {A B} (f : A → B) (l : list A) x y :
  NoDup (f <$> l) → x ∈ l → y ∈ l → f x = f y → x = y.
Proof.
  induction l as [|z l IH]; intros Hnd Hx Hy Hf; [by apply not_elem_of_nil in Hx|].
  rewrite fmap_cons in Hnd. apply NoDup_cons in Hnd as [Hz Hnd].
  apply elem_of_cons in Hx as [->|Hx]; apply elem_of_cons in Hy as [->|Hy]; try done.
  - exfalso. apply Hz. rewrite Hf. by apply list_elem_of_fmap_2.
  - exfalso. apply Hz. rewrite <- Hf. by apply list_elem_of_fmap_2.
  - by apply IH.
Qed.

Lemma getLines_products_NoDup s user :
  db_constraints s → NoDup (ci_product <$> getLines s user).
Proof.
  intros Hc. pose proof (cart_item_unique_together s Hc) as Hnd.
  unfold getLines. destruct (carts s !! user) as [cart|]; [|constructor].
  unfold items_of. induction (cart_items s) as [|it rows IH]; [constructor|].
  rewrite fmap_cons in Hnd. apply NoDup_cons in Hnd as [Hfresh Hnd].
  rewrite filter_cons. case_decide as Hcart; [|by apply IH].
  rewrite fmap_cons. apply NoDup_cons. split; [|by apply IH].
  intros (it' & Heq & [Hcart' Hin]%list_elem_of_filter)%list_elem_of_fmap.
  apply Hfresh. apply list_elem_of_fmap. exists it'.
  split; [by rewrite Hcart, Hcart', Heq | done].
Qed.

Lemma cart_map_lookup s user p q :
  db_constraints s →
  cart_map s user !! p = Some q ↔
  ∃ it, it ∈ getLines s user ∧ ci_product it = p ∧ ci_quantity it = q.
Proof.
  intros Hc. unfold cart_map. rewrite <- elem_of_list_to_map.
  - rewrite list_elem_of_fmap. split.
    + intros (it & [= -> ->] & Hin). by exists it.
    + intros (it & Hin & <- & <-). by exists it.
  - rewrite <- list_fmap_compose. by apply getLines_products_NoDup.
Qed.

Lemma gmap_eq_Some (m1 m2 : gmap Z Z) :
  (∀ p q, m1 !! p = Some q ↔ m2 !! p = Some q) → m1 = m2.
Proof. intros H. apply map_eq. intros p. apply option_eq. intros q. apply H. Qed.

Lemma getLines_cart_fetched user s u :
  db_constraints s → getLines (cart_fetched user s).1 u = getLines s u.
Proof.
  intros Hc. pose proof (items_of_cart_fetched user s Hc) as Hitems.
  pose proof (cart_fetched_frame user s) as (_ & Hci & _ & _ & _ & _ & _ & Hmine & Hothers).
  destruct (cart_fetched user s) as [s1 cart]. simpl in *.
  destruct (decide (u = user)) as [->|Hne].
  - unfold getLines at 1. by rewrite Hmine.
  - unfold getLines. by rewrite Hothers, Hci.
Qed.

(** What [add_item] does to the lines of the shopper when it answers 200:
    a line is appended when none was there for the product, and the line
    found is given the quantity otherwise. *)
Lemma post_add_item_lines user request s s' r :
  db_constraints s →
  post_add_item user request s = (s', r) →
  status_code r = HTTP_200_OK →
  ∃ pid cart,
    req_product_id request = Some pid ∧ carts s' !! user = Some cart ∧
    (((∀ it, it ∈ getLines s user → ci_product it ≠ pid) ∧
      getLines s' user =
        getLines s user ++
        [{| ci_id := next_cart_item_id s; ci_cart := cart; ci_product := pid;
            ci_quantity := default 1 (req_quantity request) |}]) ∨
     (∃ item, item ∈ getLines s user ∧ ci_product item = pid ∧
              (∀ it, it ∈ getLines s user → ci_product it = pid → it = item) ∧
              getLines s' user =
                requantify item (default 1 (req_quantity request)) <$> getLines s user)).
Proof.
  intros Hc Hrun Hcode. rewrite post_add_item_run in Hrun.
  destruct (req_product_id request) as [pid|];
    [|inversion Hrun; subst; discriminate].
  cbv zeta in Hrun.
  destruct (Product_get_active s pid) as [p|];
    [|inversion Hrun; subst; discriminate].
  destruct (decide (default 1 (req_quantity request) < 1));
    [inversion Hrun; subst; discriminate|].
  destruct (decide (stock p < default 1 (req_quantity request)));
    [inversion Hrun; subst; discriminate|].
  pose proof (items_of_cart_fetched user s Hc) as Hitems.
  pose proof (cart_fetched_frame user s) as (_ & Hci & _ & _ & _ & _ & Hnext & Hmine & _).
  destruct (cart_fetched user s) as [s1 cart]. simpl in Hitems, Hci, Hnext, Hmine, Hrun.
  assert (Hfilter : filter (λ it, ci_cart it = cart ∧ ci_product it = pid) (cart_items s1)
                    = filter (λ it, ci_product it = pid) (getLines s user)).
  { rewrite <- Hitems. unfold items_of. rewrite list_filter_filter.
    apply list_filter_iff. intros x. tauto. }
  rewrite Hfilter in Hrun. exists pid, cart. split; [done|].
  destruct (filter _ (getLines s user)) as [|item [|item' rest]] eqn:Hfound.
  - inversion Hrun as [[Hs' Hr]]. simpl. split; [done|]. left. split.
    + intros it Hin Hp. by apply (filter_nil_not_elem_of _ _ it Hfound).
    + unfold getLines at 1. simpl. rewrite Hmine. unfold items_of.
      rewrite filter_app. fold (items_of cart (cart_items s1)). rewrite Hitems.
      rewrite filter_cons_True by done. by rewrite Hnext.
  - inversion Hrun as [[Hs' Hr]]. simpl. split; [done|]. right.
    assert (Hitem : item ∈ filter (λ it, ci_product it = pid) (getLines s user))
      by (rewrite Hfound; left).
    apply list_elem_of_filter in Hitem as [Hip Hin].
    exists item. split; [done|]. split; [done|]. split.
    + intros it Hit Hp.
      assert (Hit' : it ∈ filter (λ it, ci_product it = pid) (getLines s user))
        by (by apply list_elem_of_filter).
      rewrite Hfound in Hit'. by apply list_elem_of_singleton in Hit'.
    + unfold getLines at 1. simpl. rewrite Hmine. unfold items_of.
      rewrite filter_fmap_stable.
      * fold (items_of cart (cart_items s1)). by rewrite Hitems.
      * intros x. by destruct (requantify_keys item (default 1 (req_quantity request)) x)
          as [-> _].
  - inversion Hrun; subst; discriminate.
Qed.

(** X4.  An [add_item] that answers 200 is an upsert on the shopper's cart:
    afterwards the cart holds the requested quantity for the requested
    product and, for every other product, what it held before. *)
Theorem add_item_upserts user request s s' r :
  db_constraints s →
  cart_item_pks_ok s →
  post_add_item user request s = (s', r) →
  status_code r = HTTP_200_OK →
  ∃ pid, req_product_id request = Some pid ∧
         cart_map s' user = <[pid := default 1 (req_quantity request)]> (cart_map s user).
Proof.
  intros Hc [Hpk _] Hrun Hcode.
  assert (Hc' : db_constraints s').
  { pose proof (handle_constraints user (AddItem request) s Hc) as H.
    simpl in H. by rewrite Hrun in H. }
  destruct (post_add_item_lines _ _ _ _ _ Hc Hrun Hcode)
    as (pid & cart & Hpid & _ & Hlines).
  exists pid. split; [done|]. set (q := default 1 (req_quantity request)) in *.
  apply gmap_eq_Some. intros p q'.
  rewrite (cart_map_lookup s' user p q' Hc'), lookup_insert_Some,
    (cart_map_lookup s user p q' Hc).
  destruct Hlines as [[Hnone ->]|(item & Hitem & Hip & Huniq & ->)].
  - split.
    + intros (it & [Hin|Hin]%elem_of_app & Hp & Hq).
      * right. split; [intros <-; by apply (Hnone it)|]. by exists it.
      * apply list_elem_of_singleton in Hin as ->. by left.
    + intros [[<- <-]|[Hne (it & Hin & Hp & Hq)]].
      * eexists. split; [apply elem_of_app; right; by apply list_elem_of_singleton|done].
      * exists it. split; [apply elem_of_app; by left | done].
  - split.
    + intros (it & (row & -> & Hrow)%list_elem_of_fmap & Hp & Hq).
      unfold requantify in Hp, Hq. case_decide as Hid.
      * assert (row = item) as ->.
        { apply (NoDup_fmap_eq ci_id (cart_items s)); [done| | |done].
          - by apply elem_of_getLines in Hrow as [? _].
          - by apply elem_of_getLines in Hitem as [? _]. }
        left. simpl in Hp, Hq. by rewrite <- Hp.
      * right. split; [|by exists row].
        intros Heq. apply Hid. rewrite (Huniq row); [done..|]. by rewrite Hp.
    + intros [[<- <-]|[Hne (it & Hin & Hp & Hq)]].
      * exists (requantify item q item). split; [by apply list_elem_of_fmap_2|].
        unfold requantify. by rewrite decide_True.
      * exists it. split; [|done]. apply list_elem_of_fmap. exists it. split; [|done].
        unfold requantify. case_decide as Hid; [|done].
        exfalso. apply Hne. rewrite <- Hp, <- Hip. f_equal. symmetry.
        apply (NoDup_fmap_eq ci_id (cart_items s)); [done| | |done].
        -- by apply elem_of_getLines in Hin as [? _].
        -- by apply elem_of_getLines in Hitem as [? _].
Qed.

Lemma good_cart_pks_ok : cart_item_pks_ok good_cart.
Proof.
  split; simpl.
  - by apply (bool_decide_unpack _).
  - intros it Hin.
    repeat (apply elem_of_cons in Hin as [->|Hin]; [simpl; lia|]).
    by apply not_elem_of_nil in Hin.
Qed.

Lemma add_item_upserts_witness :
  ∃ pid, req_product_id (add 1 3) = Some pid ∧
         cart_map (post_add_item 7 (add 1 3) good_cart).1 7 =
         <[pid := default 1 (req_quantity (add 1 3))]> (cart_map good_cart 7).
Proof.
  apply (add_item_upserts 7 (add 1 3) good_cart _ (post_add_item 7 (add 1 3) good_cart).2).
  - exact good_cart_constraints.
  - exact good_cart_pks_ok.
  - reflexivity.
  - reflexivity.
Defined.

Lemma post_remove_item_lines user request pid s :
  db_constraints s →
  req_product_id request = Some pid →
  pid ≠ 0 →
  status_code (post_remove_item user request s).2 = HTTP_200_OK ∧
  getLines (post_remove_item user request s).1 user =
    filter (λ it, ci_product it ≠ pid) (getLines s user).
Proof.
  intros Hc Hpid Hnz. rewrite post_remove_item_run, Hpid. cbn [falsy default].
  rewrite bool_decide_eq_false_2 by done.
  pose proof (items_of_cart_fetched user s Hc) as Hitems.
  pose proof (cart_fetched_frame user s) as (_ & _ & _ & _ & _ & _ & _ & Hmine & _).
  destruct (cart_fetched user s) as [s1 cart]. simpl in *. split; [done|].
  unfold getLines at 1. simpl. rewrite Hmine, <- Hitems. unfold items_of.
  rewrite !list_filter_filter. apply list_filter_iff. intros it. split.
  - intros [Hcart Hnot]. split; [|done]. intros Hp. by apply Hnot.
  - intros [Hp Hcart]. split; [done|]. by intros [_ ?].
Qed.



(** X6.  Removing a product right after an [add_item] that put it in the
    cart, when the cart held no line for it, gives the shopper back the
    lines they had (the product identifier being other than 0, which
    [remove_item] would take for a missing one). *)
Theorem add_then_remove_restores user request pid s s1 r1 :
  db_constraints s →
  req_product_id request = Some pid →
  pid ≠ 0 →
  (∀ it, it ∈ getLines s user → ci_product it ≠ pid) →
  post_add_item user request s = (s1, r1) →
  status_code r1 = HTTP_200_OK →
  getLines (post_remove_item user request s1).1 user = getLines s user.
Proof.
  intros Hc Hpid Hnz Hnone Hrun Hcode.
  assert (Hc1 : db_constraints s1).
  { pose proof (handle_constraints user (AddItem request) s Hc) as H.
    simpl in H. by rewrite Hrun in H. }
  destruct (post_remove_item_lines user request pid s1 Hc1 Hpid Hnz) as [_ ->].
  destruct (post_add_item_lines _ _ _ _ _ Hc Hrun Hcode)
    as (pid' & cart & Hpid' & _ & Hlines).
  rewrite Hpid in Hpid'. inversion Hpid'; subst pid'.
  destruct Hlines as [[_ ->]|(item & Hitem & Hip & _)].
  - rewrite filter_app, filter_cons_False, filter_nil, app_nil_r by (simpl; tauto).
    by apply filter_all.
  - by destruct (Hnone item Hitem).
Qed.

Lemma add_then_remove_restores_witness :
  getLines (post_remove_item 7 (add 2 1) (post_add_item 7 (add 2 1) shop).1).1 7 =
  getLines shop 7.
Proof.
  apply (add_then_remove_restores 7 (add 2 1) 2 shop _ (post_add_item 7 (add 2 1) shop).2).
  - exact shop_constraints.
  - reflexivity.
  - lia.
  - intros it Hin. by apply not_elem_of_nil in Hin.
  - reflexivity.
  - reflexivity.
Defined.

(** X7.  [clear] answers 200 and leaves the shopper without cart lines,
    whether or not they had a cart; a second [clear] changes nothing. *)
Theorem clear_empties_cart user s :
  status_code (post_clear user s).2 = HTTP_200_OK ∧
  getLines (post_clear user s).1 user = [] ∧
  cart_map (post_clear user s).1 user = ∅ ∧
  post_clear user (post_clear user s).1 = post_clear user s.
Proof.
  rewrite (post_clear_run user s).
  pose proof (cart_fetched_frame user s) as (_ & _ & _ & _ & _ & _ & _ & Hmine & _).
  destruct (cart_fetched user s) as [s1 cart]. simpl in Hmine. cbn [fst snd].
  assert (Hlines : getLines (with_cart_items (filter (λ it, ci_cart it ≠ cart)) s1) user = []).
  { unfold getLines. simpl. rewrite Hmine. apply items_of_delete_same. }
  split; [done|]. split; [done|]. split.
  - unfold cart_map. by rewrite Hlines.
  - rewrite post_clear_run. rewrite (cart_fetched_existing user cart) by done.
    cbn [fst snd]. unfold with_cart_items. simpl. by rewrite filter_idemp.
Qed.

(** ** One shopper's requests and the other shoppers' carts *)

Lemma other_lines_kept s1 s2 user cart u :
  db_constraints s1 →
  carts s1 !! user = Some cart →
  u ≠ user →
  carts s2 = carts s1 →
  (∀ c, c ≠ cart → items_of c (cart_items s2) = items_of c (cart_items s1)) →
  getLines s2 u = getLines s1 u.
Proof.
  intros Hc Hcart Hne Hcarts Hrows. unfold getLines. rewrite Hcarts.
  destruct (carts s1 !! u) as [c|] eqn:Hu; [|done].
  apply Hrows. intros ->. apply Hne. by apply (cart_pk_unique s1 Hc u user cart).
Qed.

Lemma items_of_filter_other c cart (P : CartItem → Prop) `{∀ x, Decision (P x)}
    (rows : list CartItem) :
  c ≠ cart →
  items_of c (filter (λ it, ¬ (ci_cart it = cart ∧ P it)) rows) = items_of c rows.
Proof.
  intros Hne. unfold items_of. rewrite list_filter_filter.
  apply list_filter_iff. intros it. split; [by intros [? _]|].
  intros ->. split; [done|]. by intros [? _].
Qed.

(** X8.  A request of one shopper, whatever it is and however it ends,
    leaves every other shopper with the cart lines they had. *)
Theorem requests_keep_other_carts user req u s :
  db_constraints s →
  cart_item_pks_ok s →
  u ≠ user →
  getLines (handle user req s).1 u = getLines s u.
Proof.
  intros Hc Hpk Hne.
  pose proof (getLines_cart_fetched user s u Hc) as Hfetch.
  pose proof (cart_fetched_constraints user s Hc) as Hc1.
  pose proof (cart_fetched_pks_ok user s Hpk) as [Hnd1 _].
  pose proof (cart_fetched_frame user s) as (_ & _ & _ & _ & _ & _ & _ & Hmine & _).
  destruct req as [|request|request| |request]; simpl.
  - by rewrite get_cart_run.
  - rewrite post_add_item_run.
    destruct (req_product_id request) as [pid|]; [|done]. cbv zeta.
    destruct (Product_get_active s pid) as [p|]; [|done].
    repeat case_decide; try done.
    destruct (cart_fetched user s) as [s1 cart]. simpl in *.
    destruct (filter _ (cart_items s1)) as [|item [|item' rest]] eqn:Hfound;
      simpl; [| |done]; rewrite <- Hfetch;
      apply (other_lines_kept s1 _ user cart); try done; intros c Hc'; simpl.
    + unfold items_of. rewrite filter_app, filter_cons_False, filter_nil, app_nil_r; done.
    + assert (Hitem : item ∈ filter (λ it, ci_cart it = cart ∧ ci_product it = pid)
                                   (cart_items s1)) by (rewrite Hfound; left).
      apply list_elem_of_filter in Hitem as [[Hic _] Hin].
      unfold items_of. rewrite filter_fmap_stable.
      * rewrite <- (list_fmap_id (filter _ (cart_items s1))) at 2.
        apply list_fmap_ext. intros i row Hrow. unfold requantify.
        case_decide as Hid; [|done]. exfalso.
        apply list_elem_of_lookup_2, list_elem_of_filter in Hrow as [Hrc Hrin].
        assert (row = item) as -> by (by apply (NoDup_fmap_eq ci_id (cart_items s1))).
        congruence.
      * intros x. by destruct (requantify_keys item (default 1 (req_quantity request)) x)
          as [-> _].
  - rewrite post_remove_item_run.
    destruct (falsy (req_product_id request)); [done|].
    destruct (cart_fetched user s) as [s1 cart]. simpl in *. rewrite <- Hfetch.
    apply (other_lines_kept s1 _ user cart); try done. intros c Hc'. simpl.
    by apply (items_of_filter_other c cart (λ it, ci_product it = _)).
  - rewrite post_clear_run.
    destruct (cart_fetched user s) as [s1 cart]. simpl in *. rewrite <- Hfetch.
    apply (other_lines_kept s1 _ user cart); try done. intros c Hc'. simpl.
    by apply items_of_delete_other.
  - rewrite post_checkout_run.
    destruct (CharField_run_validation 500 (req_shipping_address request))
      as [address|e]; [|by destruct e].
    destruct (cart_fetched user s) as [s1 cart]. simpl in *.
    destruct (omap _ _) as [|row rows]; [done|].
    destruct (stock_validation (row :: rows)) as [[it p]|]; [done|].
    rewrite <- Hfetch.
    apply (other_lines_kept s1 _ user cart); try done. intros c Hc'. simpl.
    by apply items_of_delete_other.
Qed.

Lemma requests_keep_other_carts_witness :
  getLines (handle 8 (AddItem (add 1 1)) good_cart).1 7 = getLines good_cart 7.
Proof.
  apply (requests_keep_other_carts 8 (AddItem (add 1 1)) 7 good_cart).
  - exact good_cart_constraints.
  - exact good_cart_pks_ok.
  - lia.
Defined.

(** ** Outcomes of requests *)









(** X12.  A checkout sent again after a successful one, with whatever
    address, creates no second order: it answers 400 and returns the store
    the first one left. *)
Theorem second_checkout_creates_nothing user request request2 s s' r :
  post_checkout user request s = (s', r) →
  status_code r = HTTP_201_CREATED →
  ∃ r2, post_checkout user request2 s' = (s', r2) ∧
        status_code r2 = HTTP_400_BAD_REQUEST.
Proof.
  intros Hrun Hcode.
  destruct (post_checkout_created _ _ _ _ _ Hrun Hcode) as (address & _ & _ & _ & Heq).
  pose proof (cart_fetched_frame user s) as (_ & _ & _ & _ & _ & _ & _ & Hmine & _).
  destruct (cart_fetched user s) as [s1 cart]. simpl in Heq, Hmine.
  unfold committed in Heq. inversion Heq as [[Hs' Hr]]. clear Heq Hr.
  rewrite <- Hs'. rewrite post_checkout_run.
  destruct (CharField_run_validation 500 (req_shipping_address request2))
    as [address2|e] eqn:Hvalid.
  2:{ apply CharField_raises in Hvalid as [d ->]. rewrite Hs'. by eexists. }
  assert (Hcart' : carts s' !! user = Some cart) by (by rewrite Hs').
  rewrite (cart_fetched_existing user cart s' Hcart').
  assert (Hnone : items_of cart (cart_items s') = []).
  { subst s'. simpl. apply items_of_delete_same. }
  cbv zeta. rewrite Hnone. simpl. by eexists.
Qed.

Lemma second_checkout_creates_nothing_witness :
  ∃ r2, post_checkout 7 main_st (post_checkout 7 main_st good_cart).1 =
        ((post_checkout 7 main_st good_cart).1, r2) ∧
        status_code r2 = HTTP_400_BAD_REQUEST.
Proof.
  apply (second_checkout_creates_nothing 7 main_st main_st good_cart _
           (post_checkout 7 main_st good_cart).2).
  - reflexivity.
  - reflexivity.
Defined.

(** ** The order history *)

Lemma orders_untouched_below s (f : Order → Order) :
  db_constraints s →
  (λ row, if decide (order_id row = next_order_id s) then f row else row) <$> orders s
  = orders s.
Proof.
  intros Hc. rewrite <- (list_fmap_id (orders s)) at 2.
  apply list_fmap_ext. intros i o Ho. apply list_elem_of_lookup_2 in Ho.
  apply (order_pk_fresh s Hc) in Ho. rewrite decide_False by lia. done.
Qed.

Lemma handle_orders_prefix user req s :
  db_constraints s →
  orders s `prefix_of` orders (handle user req s).1 ∧
  order_items s `prefix_of` order_items (handle user req s).1.
Proof.
  intros Hc.
  destruct (cart_views_frame user s) as (Hget & Hadd & Hrem & Hclr).
  destruct req as [|request|request| |request]; simpl.
  - destruct Hget as (_ & -> & ->). done.
  - destruct (Hadd request) as (_ & -> & ->). done.
  - destruct (Hrem request) as (_ & -> & ->). done.
  - destruct Hclr as (_ & -> & ->). done.
  - rewrite post_checkout_run.
    destruct (CharField_run_validation 500 (req_shipping_address request))
      as [address|e]; [|by destruct e].
    pose proof (cart_fetched_constraints user s Hc) as Hc1.
    pose proof (cart_fetched_frame user s) as (_ & _ & Ho & Hoi & _).
    destruct (cart_fetched user s) as [s1 cart]. simpl in *. rewrite <- Ho, <- Hoi.
    destruct (omap _ _) as [|row rows]; [done|].
    destruct (stock_validation (row :: rows)) as [[it p]|]; [done|].
    cbn [committed fst orders order_items]. split.
    + rewrite fmap_app, (orders_untouched_below s1) by done. by eexists.
    + by eexists.
Qed.

(** X13.  The order history is append-only: along every run of the core the
    orders and order lines that were stored stay where they are, unchanged,
    and new ones only come after them. *)
Theorem order_history_append_only s trace :
  db_constraints s →
  orders s `prefix_of` orders (run trace s) ∧
  order_items s `prefix_of` order_items (run trace s).
Proof.
  revert s. induction trace as [|[user req] trace IH]; intros s Hc; [done|].
  simpl. destruct (handle_orders_prefix user req s Hc) as [Ho Hoi].
  destruct (IH _ (handle_constraints user req s Hc)) as [Ho' Hoi'].
  split; by etrans.
Qed.

Lemma order_history_append_only_witness :
  orders good_cart `prefix_of` orders (run [(7, Checkout main_st)] good_cart) ∧
  order_items good_cart `prefix_of` order_items (run [(7, Checkout main_st)] good_cart).
Proof.
  apply (order_history_append_only good_cart [(7, Checkout main_st)]).
  exact good_cart_constraints.
Defined.

Lemma imap_order_line_ids (l : list OrderItem) n :
  oi_id <$> imap (λ i oi, set_oi_id (n + Z.of_nat i) oi) l =
  (λ i, n + Z.of_nat i) <$> seq 0 (length (imap (λ i oi, set_oi_id (n + Z.of_nat i) oi) l)).
Proof.
  rewrite length_imap. apply list_eq. intros i.
  rewrite !list_lookup_fmap, list_lookup_imap.
  destruct (l !! i) as [oi|] eqn:E; simpl.
  - rewrite lookup_seq_lt by (by eapply lookup_lt_Some). done.
  - rewrite lookup_seq_ge by (by apply lookup_ge_None). done.
Qed.

(** X14.  A successful checkout adds exactly one order and one order line
    per cart line: the order is the shopper's, takes the next order key, and
    is the one answered; its lines take consecutive keys from the next
    order-line key on. *)
Theorem checkout_appends_one_order user request s s' r :
  db_constraints s →
  post_checkout user request s = (s', r) →
  status_code r = HTTP_201_CREATED →
  ∃ order lines,
    data r = OrderData order lines ∧
    orders s' = orders s ++ [order] ∧
    order_items s' = order_items s ++ lines ∧
    order_user order = user ∧ order_id order = next_order_id s ∧
    length lines = length (getLines s user) ∧
    oi_id <$> lines =
      (λ i, next_order_item_id s + Z.of_nat i) <$> seq 0 (length lines).
Proof.
  intros Hc Hrun Hcode.
  destruct (post_checkout_created_cart _ _ _ _ _ Hc Hrun Hcode)
    as (address & cart & _ & Hcart & _ & _ & Heq).
  set (items := omap (join_product (products s)) (getLines s user)) in *.
  unfold committed in Heq. inversion Heq as [[Hs' Hr]]. clear Heq Hs' Hr.
  set (lines := imap (λ i oi, set_oi_id (next_order_item_id s + Z.of_nat i) oi)
                     (order_line (next_order_id s) <$> items)).
  assert (Hlines : items_of_order (next_order_id s) (order_items s ++ lines) = lines).
  { apply items_of_order_new; [done|].
    intros oi (i & y & -> & Hy)%elem_of_lookup_imap.
    apply list_elem_of_lookup_2, list_elem_of_fmap in Hy as (row & -> & _). done. }
  assert (Hlen : length items = length (getLines s user)).
  { unfold items. rewrite <- (length_fmap (λ row, ci_product row.1)).
    rewrite joined_products, length_fmap; [done|].
    intros it [Hin _]%elem_of_getLines. by apply (cart_item_product_fk s Hc). }
  eexists _, _. cbn [data orders order_items]. split; [reflexivity|].
  rewrite Hlines. split; [|split; [done|split; [done|split; [done|split]]]].
  - rewrite fmap_app, orders_untouched_below by done. simpl.
    by rewrite decide_True.
  - unfold lines. by rewrite length_imap, length_fmap.
  - unfold lines. apply imap_order_line_ids.
Qed.

Lemma checkout_appends_one_order_witness :
  ∃ order lines,
    data (post_checkout 7 main_st good_cart).2 = OrderData order lines ∧
    orders (post_checkout 7 main_st good_cart).1 = orders good_cart ++ [order] ∧
    order_items (post_checkout 7 main_st good_cart).1 = order_items good_cart ++ lines ∧
    order_user order = 7 ∧ order_id order = next_order_id good_cart ∧
    length lines = length (getLines good_cart 7) ∧
    oi_id <$> lines =
      (λ i, next_order_item_id good_cart + Z.of_nat i) <$> seq 0 (length lines).
Proof.
  apply (checkout_appends_one_order 7 main_st good_cart).
  - exact good_cart_constraints.
  - reflexivity.
  - reflexivity.
Defined.

(** ** Subtotals and recomputed totals *)

Lemma foldl_add_sumZ {A} (f : A → Z) (l : list A) : ∀ a,
  foldl (λ total x, total + f x) a l = a + sumZ (f <$> l).
Proof.
  induction l as [|x l IH]; intros a; [unfold sumZ; simpl; lia|].
  cbn [foldl]. rewrite IH, fmap_cons.
  change (sumZ (?y :: ?k)) with (y + sumZ k). lia.
Qed.

Lemma or_zero_id x : or_zero x = x.
Proof. unfold or_zero. by case_decide. Qed.

Lemma committed_lines_total (items : list (CartItem * Product)) order n :
  sumZ (oi_line_total <$>
        imap (λ i oi, set_oi_id (n + Z.of_nat i) oi) (order_line order <$> items))
  = sumZ (get_line_total <$> items).
Proof.
  rewrite (fmap_imap_invariant oi_line_total) by done.
  by rewrite <- list_fmap_compose.
Qed.

(** X15.  The subtotal the cart shows is what the shopper is charged: when a
    checkout succeeds, the total of the order it answers is the subtotal
    that reading the cart gave on the store the checkout started from. *)
Theorem cart_subtotal_is_order_total user request s s' r :
  db_constraints s →
  post_checkout user request s = (s', r) →
  status_code r = HTTP_201_CREATED →
  ∃ order lines cart rows,
    data r = OrderData order lines ∧
    data (get_cart user s).2 = CartData cart user rows (total_amount order).
Proof.
  intros Hc Hrun Hcode.
  destruct (post_checkout_created_cart _ _ _ _ _ Hc Hrun Hcode)
    as (address & cart & _ & Hcart & _ & _ & Heq).
  unfold committed in Heq. inversion Heq as [[Hs' Hr]]. clear Heq Hs' Hr.
  rewrite get_cart_run, (cart_fetched_existing user cart s Hcart).
  eexists _, _, cart, _. cbn [data fst snd]. split; [reflexivity|].
  unfold cart_data, get_subtotal. cbn [total_amount].
  rewrite (foldl_add_sumZ get_line_total), Z.add_0_l. unfold getLines.
  by rewrite Hcart.
Qed.

Lemma cart_subtotal_is_order_total_witness :
  ∃ order lines cart rows,
    data (post_checkout 7 main_st good_cart).2 = OrderData order lines ∧
    data (get_cart 7 good_cart).2 = CartData cart 7 rows (total_amount order).
Proof.
  apply (cart_subtotal_is_order_total 7 main_st good_cart
           (post_checkout 7 main_st good_cart).1).
  - exact good_cart_constraints.
  - reflexivity.
  - reflexivity.
Defined.

(** X16.  Recomputing the total of the order a successful checkout answers,
    from the lines stored for it, gives the total the checkout stored and
    leaves the order object as it is. *)
Theorem recalc_total_agrees user request s s' r :
  db_constraints s →
  post_checkout user request s = (s', r) →
  status_code r = HTTP_201_CREATED →
  ∃ order lines,
    data r = OrderData order lines ∧
    recalc_total order s' = (order, total_amount order).
Proof.
  intros Hc Hrun Hcode.
  destruct (post_checkout_created_cart _ _ _ _ _ Hc Hrun Hcode)
    as (address & cart & _ & Hcart & _ & _ & Heq).
  set (items := omap (join_product (products s)) (getLines s user)) in *.
  unfold committed in Heq. inversion Heq as [[Hs' Hr]]. clear Heq Hs' Hr.
  set (lines := imap (λ i oi, set_oi_id (next_order_item_id s + Z.of_nat i) oi)
                     (order_line (next_order_id s) <$> items)).
  assert (Hlines : items_of_order (next_order_id s) (order_items s ++ lines) = lines).
  { apply items_of_order_new; [done|].
    intros oi (i & y & -> & Hy)%elem_of_lookup_imap.
    apply list_elem_of_lookup_2, list_elem_of_fmap in Hy as (row & -> & _). done. }
  eexists _, _. cbn [data]. split; [reflexivity|].
  unfold recalc_total. cbn [order_id order_items status total_amount].
  rewrite Hlines, (foldl_add_sumZ OrderItem_get_line_total), Z.add_0_l.
  match goal with
  | |- (set_total_status ?x _ _, _) = _ =>
      replace x with (sumZ (get_line_total <$> items)); [done|]
  end.
  rewrite <- (committed_lines_total items (next_order_id s) (next_order_item_id s)).
  f_equal. apply list_fmap_ext. intros i oi _.
  unfold OrderItem_get_line_total, oi_line_total. by rewrite or_zero_id.
Qed.

Lemma recalc_total_agrees_witness :
  ∃ order lines,
    data (post_checkout 7 main_st good_cart).2 = OrderData order lines ∧
    recalc_total order (post_checkout 7 main_st good_cart).1 = (order, total_amount order).
Proof.
  apply (recalc_total_agrees 7 main_st good_cart).
  - exact good_cart_constraints.
  - reflexivity.
  - reflexivity.
Defined.

(** ** The shipping address *)







(** * Slugs *)

Lemma string_app_nil_r (v : string) : v +:+ "" = v.
Proof.
  induction v as [|a v IH]; [done|].
  change (String a (v +:+ "") = String a v). by f_equal.
Qed.

Lemma slug_candidate_inj base j k :
  slug_candidate base j = slug_candidate base k → j = k.
Proof.
  destruct j as [|j], k as [|k]; simpl; [done| | |].
  - intros H. rewrite <- (string_app_nil_r base) in H at 1.
    apply (inj (String.app base)) in H. discriminate.
  - intros H. rewrite <- (string_app_nil_r base) in H at 2.
    apply (inj (String.app base)) in H. discriminate.
  - intros H. apply (inj (String.app base)) in H.
    apply (inj (String.app "-")) in H. by apply (inj pretty) in H.
Qed.

(** The loop started on the [k]-th candidate either stops on the first free
    candidate from [k] on, or finds [fuel] candidates in use. *)
Lemma slug_loop_run in_use base fuel : ∀ k,
  match slug_loop fuel in_use base (slug_candidate base k) (S k) with
  | Some slug =>
      ∃ j, (k ≤ j < k + fuel)%nat ∧ slug = slug_candidate base j ∧
           in_use slug = false ∧
           ∀ j', (k ≤ j' < j)%nat → in_use (slug_candidate base j') = true
  | None => ∀ j, (k ≤ j < k + fuel)%nat → in_use (slug_candidate base j) = true
  end.
Proof.
  induction fuel as [|fuel IH]; intros k; simpl; [intros j Hj; lia|].
  destruct (in_use (slug_candidate base k)) eqn:Hk.
  - specialize (IH (S k)). simpl in IH.
    destruct (slug_loop fuel in_use base _ (S (S k))) as [slug|].
    + destruct IH as (j & Hj & -> & Hfree & Hbefore).
      exists j. split; [lia|]. split; [done|]. split; [done|].
      intros j' Hj'. destruct (decide (j' = k)) as [->|Hne]; [done|].
      apply Hbefore. lia.
    + intros j Hj. destruct (decide (j = k)) as [->|Hne]; [done|].
      apply IH. lia.
  - exists k. split; [lia|]. split; [done|]. split; [done|]. intros j' Hj'. lia.
Qed.

Lemma slug_in_use_elem rows pk slug :
  slug_in_use rows pk slug = true → slug ∈ rows.*2.
Proof.
  unfold slug_in_use. intros H%bool_decide_eq_true.
  apply Exists_exists in H as (row & Hin & <- & _). by apply list_elem_of_fmap_2.
Qed.

(** More candidates in use than there are rows cannot be. *)
Lemma slug_candidates_run_out rows pk base k n :
  (length rows < n)%nat →
  ¬ ∀ j, (k ≤ j < k + n)%nat → slug_in_use rows pk (slug_candidate base j) = true.
Proof.
  intros Hlen Hall.
  assert (Hsub : slug_candidate base <$> seq k n ⊆+ rows.*2).
  { apply NoDup_submseteq.
    - apply NoDup_fmap_2_strong; [|apply NoDup_seq].
      intros i j _ _. apply slug_candidate_inj.
    - intros slug (j & -> & Hj%elem_of_seq)%list_elem_of_fmap.
      apply (slug_in_use_elem rows pk). apply Hall. lia. }
  apply submseteq_length in Hsub. rewrite !length_fmap, length_seq in Hsub. lia.
Qed.

Lemma save_slug_run fuel slugify rows pk label :
  (length rows < fuel)%nat →
  ∃ k, (k ≤ length rows)%nat ∧
       save_slug fuel slugify rows pk label "" =
         Some (slug_candidate (slugify label) k) ∧
       slug_in_use rows pk (slug_candidate (slugify label) k) = false ∧
       ∀ j, (j < k)%nat → slug_in_use rows pk (slug_candidate (slugify label) j) = true.
Proof.
  intros Hfuel. unfold save_slug. rewrite decide_True by done. cbv zeta.
  pose proof (slug_loop_run (slug_in_use rows pk) (slugify label) fuel 0) as Hrun.
  simpl in Hrun.
  destruct (slug_loop fuel (slug_in_use rows pk) (slugify label) (slugify label) 1)
    as [slug|].
  - destruct Hrun as (k & Hk & -> & Hfree & Hbefore).
    exists k. split; [|split; [done|split; [done|]]].
    + destruct (decide (k ≤ length rows)%nat) as [|Hgt]; [done|]. exfalso.
      apply (slug_candidates_run_out rows pk (slugify label) 0 (S (length rows)));
        [lia|]. intros j Hj. apply Hbefore. lia.
    + intros j Hj. apply Hbefore. lia.
  - exfalso. by apply (slug_candidates_run_out rows pk (slugify label) 0 fuel).
Qed.

(** X18.  Saving an object that has no slug yet gives it, within as many
    tries as the table has rows plus one, the first slug that no other row
    uses among [base], [base-1], [base-2], ...; an object that has a slug
    keeps it. *)
Theorem save_slug_first_free fuel slugify rows pk label :
  (length rows < fuel)%nat →
  (∃ k, (k ≤ length rows)%nat ∧
        save_slug fuel slugify rows pk label "" =
          Some (slug_candidate (slugify label) k) ∧
        slug_in_use rows pk (slug_candidate (slugify label) k) = false ∧
        ∀ j, (j < k)%nat → slug_in_use rows pk (slug_candidate (slugify label) j) = true) ∧
  (∀ slug, slug ≠ EmptyString → save_slug fuel slugify rows pk label slug = Some slug).
Proof.
  intros Hfuel. split; [by apply save_slug_run|].
  intros slug Hslug. unfold save_slug. by rewrite decide_False.
Qed.

Lemma save_slug_first_free_witness :
  (∃ k, (k ≤ length [(1, "books"); (2, "books-1")])%nat ∧
        save_slug 3 id [(1, "books"); (2, "books-1")] None "books" "" =
          Some (slug_candidate (id "books") k) ∧
        slug_in_use [(1, "books"); (2, "books-1")] None (slug_candidate (id "books") k)
          = false ∧
        ∀ j, (j < k)%nat →
             slug_in_use [(1, "books"); (2, "books-1")] None
               (slug_candidate (id "books") j) = true) ∧
  (∀ slug, slug ≠ EmptyString →
           save_slug 3 id [(1, "books"); (2, "books-1")] None "books" slug = Some slug).
Proof.
  apply (save_slug_first_free 3 id [(1, "books"); (2, "books-1")] None "books").
  simpl. lia.
Defined.

(** For the two rows above the loop ends on [books-2]. *)
Example save_slug_books :
  save_slug 3 id [(1, "books"); (2, "books-1")] None "books" "" = Some "books-2".
Proof. vm_compute. reflexivity. Qed.

Lemma slug_free_not_elem rows slug :
  slug_in_use rows None slug = false → slug ∉ rows.*2.
Proof.
  unfold slug_in_use. intros H%bool_decide_eq_false Hin. apply H.
  apply list_elem_of_fmap in Hin as (row & -> & Hin).
  apply Exists_exists. exists row. by split.
Qed.

(** X19.  Creating a category under a name no category has always succeeds,
    given fuel beyond the number of rows: the slug it is given is used by no
    row, so that the unique constraint on slugs does not fire, and slugs
    that were pairwise distinct stay so. *)
Theorem category_create_keeps_slugs_distinct fuel slugify table next_id name :
  (length table < fuel)%nat →
  name ∉ category_name <$> table →
  ∃ slug,
    Category_create fuel slugify table next_id name =
      Some (WrittenOk (table ++ [{| category_id := next_id; category_name := name;
                                    category_slug := slug |}])) ∧
    (slug ∉ category_slug <$> table) ∧
    (NoDup (category_slug <$> table) →
     NoDup (category_slug <$> table ++ [{| category_id := next_id;
                                           category_name := name;
                                           category_slug := slug |}])).
Proof.
  intros Hfuel Hname. unfold Category_create, Category_save_slug.
  set (rows := (λ c, (category_id c, category_slug c)) <$> table).
  assert (Hrows : rows.*2 = category_slug <$> table).
  { unfold rows. by rewrite <- list_fmap_compose. }
  destruct (save_slug_run fuel slugify rows None name) as (k & _ & -> & Hfree & _).
  { unfold rows. by rewrite length_fmap. }
  apply slug_free_not_elem in Hfree. rewrite Hrows in Hfree.
  eexists. simpl. rewrite !bool_decide_eq_false_2 by done. simpl.
  split; [reflexivity|]. split; [done|].
  intros Hnd. rewrite fmap_app. apply NoDup_app. split; [done|]. split.
  - intros slug Hin Hslug. apply list_elem_of_singleton in Hslug. by subst.
  - apply NoDup_singleton.
Qed.

Lemma category_create_keeps_slugs_distinct_witness :
  ∃ slug,
    Category_create 2 id [{| category_id := 1; category_name := "books";
                             category_slug := "books" |}] 2 "Books" =
      Some (WrittenOk ([{| category_id := 1; category_name := "books";
                           category_slug := "books" |}] ++
                       [{| category_id := 2; category_name := "Books";
                           category_slug := slug |}])) ∧
    (slug ∉ category_slug <$> [{| category_id := 1; category_name := "books";
                                  category_slug := "books" |}]) ∧
    (NoDup (category_slug <$> [{| category_id := 1; category_name := "books";
                                  category_slug := "books" |}]) →
     NoDup (category_slug <$> [{| category_id := 1; category_name := "books";
                                  category_slug := "books" |}] ++
                              [{| category_id := 2; category_name := "Books";
                                  category_slug := slug |}])).
Proof.
  apply (category_create_keeps_slugs_distinct 2 id
           [{| category_id := 1; category_name := "books"; category_slug := "books" |}]
           2 "Books").
  - simpl. lia.
  - simpl. intros Hin. apply list_elem_of_singleton in Hin. discriminate.
Defined.

(** * Orders as their owners see them *)

Lemma committed_orders user cart address items s :
  db_constraints s →
  orders (committed user cart address items s).1 =
  orders s ++ [{| order_id := next_order_id s; order_user := user; status := paid;
                  total_amount := sumZ (get_line_total <$> items);
                  shipping_address := address |}].
Proof.
  intros Hc. cbn [committed fst orders].
  rewrite fmap_app, orders_untouched_below by done. simpl. by rewrite decide_True.
Qed.

(** X20.  The orders a user is shown are that user's, newest first.  A
    successful checkout puts the order it answers in the shopper's list and
    leaves the list of every other user as it was. *)
Theorem orders_scoped_to_owner created_at user request s s' r :
  db_constraints s →
  post_checkout user request s = (s', r) →
  status_code r = HTTP_201_CREATED →
  (∀ u o, o ∈ OrderViewSet_get_queryset created_at u s' → order_user o = u) ∧
  (∀ u, Sorted (newer_first created_at) (OrderViewSet_get_queryset created_at u s')) ∧
  (∃ order lines, data r = OrderData order lines ∧
                  order ∈ OrderViewSet_get_queryset created_at user s') ∧
  (∀ u, u ≠ user →
        OrderViewSet_get_queryset created_at u s' =
        OrderViewSet_get_queryset created_at u s).
Proof.
  intros Hc Hrun Hcode.
  destruct (post_checkout_created_cart _ _ _ _ _ Hc Hrun Hcode)
    as (address & cart & _ & _ & _ & _ & Heq).
  set (items := omap (join_product (products s)) (getLines s user)) in *.
  assert (Horders : orders s' = orders (committed user cart address items s).1)
    by (by rewrite <- Heq).
  rewrite committed_orders in Horders by done.
  assert (Hdata : ∃ order lines, data r = OrderData order lines ∧
                                 order ∈ orders s' ∧ order_user order = user).
  { assert (Hr : r = (committed user cart address items s).2) by (by rewrite <- Heq).
    rewrite Hr, Horders. eexists _, _. cbn [committed snd data].
    split; [reflexivity|]. split; [|done]. apply elem_of_app. right. left. }
  clear Heq.
  unfold OrderViewSet_get_queryset. split; [|split; [|split]].
  - intros u o Hin. rewrite merge_sort_Permutation in Hin.
    by apply list_elem_of_filter in Hin as [? _].
  - intros u. apply Sorted_merge_sort. apply _.
  - destruct Hdata as (order & lines & Hdata & Hin & Huser).
    exists order, lines. split; [done|].
    rewrite merge_sort_Permutation. by apply list_elem_of_filter.
  - intros u Hne. rewrite Horders, filter_app.
    rewrite (filter_cons_False _ _ []) by (simpl; congruence).
    by rewrite filter_nil, app_nil_r.
Qed.

Lemma orders_scoped_to_owner_witness :
  (∀ u o, o ∈ OrderViewSet_get_queryset id u (post_checkout 7 main_st good_cart).1 →
          order_user o = u) ∧
  (∀ u, Sorted (newer_first id)
          (OrderViewSet_get_queryset id u (post_checkout 7 main_st good_cart).1)) ∧
  (∃ order lines,
     data (post_checkout 7 main_st good_cart).2 = OrderData order lines ∧
     order ∈ OrderViewSet_get_queryset id 7 (post_checkout 7 main_st good_cart).1) ∧
  (∀ u, u ≠ 7 →
        OrderViewSet_get_queryset id u (post_checkout 7 main_st good_cart).1 =
        OrderViewSet_get_queryset id u good_cart).
Proof.
  apply (orders_scoped_to_owner id 7 main_st good_cart).
  - exact good_cart_constraints.
  - reflexivity.
  - reflexivity.
Defined.

(** * Reading the cart *)



(** * Checkout and the active flag *)











(** * What a cart accepted can be bought *)





(** * The line a refused checkout reports *)



